(** * Blob lifecycle of the Citadel IDP backend

    A shallow embedding of [common/utils.py], [services/input_blob_handler.py],
    [services/input_blob_analysis_service.py] and [services/main_service.py],
    with the properties of the lifecycle state machine stated over it.

    [services/blob_handler.py] is not embedded.  It imports
    [FolderMissingBusinessException] and [CitadelIDPProcessingException]
    from [common/custom_exceptions.py], which defines neither, and calls
    [utils.blob_service_client] and [utils.container_client], which
    [common/utils.py] does not have: the module cannot be imported, and
    [services/main_service.py] does not import it. *)

From Stdlib Require Import Ascii String.
From stdpp Require Import base option list gmap strings.

Local Open Scope string_scope.
Local Open Scope list_scope.

(** ** Python values the code manipulates *)

(** The exception classes that can reach the handlers.  The first four are
    the classes of [common/custom_exceptions.py]; [AttributeError],
    [TypeError] and [ValueError] are raised by the interpreter, by
    [configparser] and by the SDKs, [ResourceNotFoundError] and
    [ResourceExistsError] by the storage SDK, and [ServiceError] stands for
    whatever else a remote service raises. *)
Inductive exn : Type :=
  | CitadelIDPBackendException (msg : string)
  | MissingConfigException (msg : string)
  | MissingDocumentTypeException (msg : string)
  | JobExecutionException (msg : string)
  | AttributeError
  | TypeError
  | ValueError
  | ResourceNotFoundError
  | ResourceExistsError
  | ServiceError (msg : string).

(** [isinstance(e, MissingConfigException)] *)
Definition is_MissingConfigException (e : exn) : bool :=
  match e with
  | MissingConfigException _ => true
  | _ => false
  end.

(** [isinstance(e, CitadelIDPBackendException)]: the class and its three
    subclasses. *)
Definition is_CitadelIDPBackendException (e : exn) : bool :=
  match e with
  | CitadelIDPBackendException _
  | MissingConfigException _
  | MissingDocumentTypeException _
  | JobExecutionException _ => true
  | _ => false
  end.

(** The outcome of evaluating a Python expression or statement. *)
Inductive outcome (A : Type) : Type :=
  | Returned (a : A)
  | Raised (e : exn).
Arguments Returned {A} a.
Arguments Raised {A} e.

Definition raises {A} (o : outcome A) : Prop :=
  match o with
  | Raised _ => True
  | Returned _ => False
  end.

(** ** [str] methods and [os.path] functions *)

Module PyStr.

(** [s.startswith(p)] *)
Fixpoint startswith (s p : string) : bool :=
  match p with
  | EmptyString => true
  | String a p' =>
      match s with
      | EmptyString => false
      | String b s' => if Ascii.eqb a b then startswith s' p' else false
      end
  end.

(** [old in s] *)
Fixpoint contains (s old : string) : bool :=
  startswith s old ||
  match s with
  | EmptyString => false
  | String _ s' => contains s' old
  end.

(** [s.find(old)], [None] standing for -1. *)
Fixpoint find (s old : string) : option nat :=
  if startswith s old then Some 0
  else match s with
       | EmptyString => None
       | String _ s' => S <$> find s' old
       end.

(** [s[n:]] and [s[:n]] *)
Fixpoint drop (n : nat) (s : string) : string :=
  match n, s with
  | S k, String _ s' => drop k s'
  | _, _ => s
  end.

Fixpoint take (n : nat) (s : string) : string :=
  match n, s with
  | S k, String c s' => String c (take k s')
  | _, _ => EmptyString
  end.

(** The scan of [str.replace] for a non-empty [old]: left to right,
    non-overlapping; [skip] counts the characters of a match still to be
    passed over. *)
Fixpoint replace_scan (old new : string) (skip : nat) (s : string) : string :=
  match s with
  | EmptyString => EmptyString
  | String c s' =>
      match skip with
      | S k => replace_scan old new k s'
      | O =>
          if startswith s old
          then new +:+ replace_scan old new (pred (String.length old)) s'
          else String c (replace_scan old new 0 s')
      end
  end.

(** With an empty [old], [new] is put before every character and at the
    end. *)
Fixpoint replace_empty (new : string) (s : string) : string :=
  match s with
  | EmptyString => new
  | String c s' => new +:+ String c (replace_empty new s')
  end.

(** [s.replace(old, new)] *)
Definition replace (s old new : string) : string :=
  match old with
  | EmptyString => replace_empty new s
  | String _ _ => replace_scan old new 0 s
  end.

(** No non-empty suffix of [v] is a prefix of [b]. *)
Fixpoint borderless_from (b v : string) : bool :=
  match v with
  | EmptyString => true
  | String _ v' => negb (startswith b v) && borderless_from b v'
  end.

(** [b] is not empty and none of its proper suffixes is one of its
    prefixes: two occurrences of [b] in a text never overlap. *)
Definition unbordered (b : string) : bool :=
  match b with
  | EmptyString => false
  | String _ t => borderless_from b t
  end.

(** [s.rpartition(c)] for a one-character separator, [None] when the
    separator is absent: the text before and after its last occurrence. *)
Fixpoint rsplit1 (c : ascii) (s : string) : option (string * string) :=
  match s with
  | EmptyString => None
  | String a s' =>
      match rsplit1 c s' with
      | Some (l, r) => Some (String a l, r)
      | None => if Ascii.eqb a c then Some (EmptyString, s') else None
      end
  end.

(** [s.lower()].  A character of the model is a code point below 256; the
    ones [str.lower] changes there are [A]-[Z] and the capital letters of
    the Latin-1 block (192-214 and 216-222), each 32 below its lower-case
    form. *)
Definition lower_char (c : ascii) : ascii :=
  let n := nat_of_ascii c in
  if ((65 <=? n)%nat && (n <=? 90)%nat)
     || ((192 <=? n)%nat && (n <=? 214)%nat)
     || ((216 <=? n)%nat && (n <=? 222)%nat)
  then ascii_of_nat (n + 32) else c.

Fixpoint lower (s : string) : string :=
  match s with
  | EmptyString => EmptyString
  | String c s' => String (lower_char c) (lower s')
  end.

(** [s.rstrip("/")] *)
Fixpoint rstrip_slash (s : string) : string :=
  match s with
  | EmptyString => EmptyString
  | String c s' =>
      match rstrip_slash s' with
      | EmptyString => if Ascii.eqb c "/" then EmptyString else String c EmptyString
      | t => String c t
      end
  end.

(** [all(ch == c for ch in s)] *)
Fixpoint all_char (c : ascii) (s : string) : bool :=
  match s with
  | EmptyString => true
  | String a s' => Ascii.eqb a c && all_char c s'
  end.

(** The single and the double quote, by their character codes. *)
Definition is_quote (c : ascii) : bool :=
  (nat_of_ascii c =? 39)%nat || (nat_of_ascii c =? 34)%nat.

(** [s.lstrip(chars)], [s.rstrip(chars)] and [s.strip(chars)] for the set
    of characters [p]. *)
Fixpoint lstrip (p : ascii → bool) (s : string) : string :=
  match s with
  | EmptyString => EmptyString
  | String c s' => if p c then lstrip p s' else s
  end.

Fixpoint rstrip (p : ascii → bool) (s : string) : string :=
  match s with
  | EmptyString => EmptyString
  | String c s' =>
      match rstrip p s' with
      | EmptyString => if p c then EmptyString else String c EmptyString
      | t => String c t
      end
  end.

Definition strip (p : ascii → bool) (s : string) : string := rstrip p (lstrip p s).

(** [s.startswith(chars)] and [s.endswith(chars)] for a tuple of
    one-character strings. *)
Definition first_char_in (p : ascii → bool) (s : string) : bool :=
  match s with
  | EmptyString => false
  | String c _ => p c
  end.

Fixpoint last_char_in (p : ascii → bool) (s : string) : bool :=
  match s with
  | EmptyString => false
  | String c EmptyString => p c
  | String _ s' => last_char_in p s'
  end.

(** [posixpath.basename]: the text after the last slash. *)
Definition basename (p : string) : string :=
  match rsplit1 "/" p with
  | Some (_, r) => r
  | None => p
  end.

(** [posixpath.dirname]: the text up to the last slash, trailing slashes
    stripped unless it consists of slashes only. *)
Definition dirname (p : string) : string :=
  match rsplit1 "/" p with
  | Some (l, _) =>
      let head := l +:+ "/" in
      if all_char "/" head then head else rstrip_slash head
  | None => EmptyString
  end.

(** [posixpath.splitext]: the extension starts at the last dot of the last
    path component, unless only dots precede it there. *)
Definition splitext_name (name : string) : string * string :=
  match rsplit1 "." name with
  | Some (l, r) =>
      if all_char "." l then (name, EmptyString) else (l, String "." r)
  | None => (name, EmptyString)
  end.

Definition splitext (p : string) : string * string :=
  match rsplit1 "/" p with
  | Some (l, r) =>
      let '(root, ext) := splitext_name r in (l +:+ "/" +:+ root, ext)
  | None => splitext_name p
  end.

End PyStr.

(** ** [common/utils.py] *)

(** The objects [string_is_not_empty] can be handed: a string, [None], and
    the built-in type [str] its guard mentions. *)
Inductive pyobj : Type :=
  | PyNone
  | PyString (s : string)
  | PyTypeStr.

(** [x is not None] *)
Definition is_not_None (x : pyobj) : bool :=
  match x with
  | PyNone => false
  | _ => true
  end.

(** [len(x)]: a [TypeError] for an object without a length. *)
Definition py_len (x : pyobj) : outcome nat :=
  match x with
  | PyString s => Returned (String.length s)
  | PyNone | PyTypeStr => Raised TypeError
  end.

(** [return str is not None and len(input_str) > 0] *)
Definition string_is_not_empty (input_str : pyobj) : outcome bool :=
  if is_not_None PyTypeStr
  then match py_len input_str with
       | Returned n => Returned (0 <? n)%nat
       | Raised e => Raised e
       end
  else Returned false.

(** Modelled from the spec: [common/config_reader.py] is not among the
    sources.  [config_reader.config_data] is a [ConfigParser]; the model
    keeps, for every section, the list [items(section)] gives: the options
    the section presents (those it inherits from [[DEFAULT]] and its own),
    in that order, with the values [get] returns for them. *)
Definition ConfigParser : Type := gmap string (list (string * string)).

Module Config.

Definition has_section (c : ConfigParser) (section : string) : bool :=
  bool_decide (is_Some (c !! section)).

Definition items (c : ConfigParser) (section : string) : list (string * string) :=
  default [] (c !! section).

Fixpoint assoc (kvs : list (string * string)) (k : string) : option string :=
  match kvs with
  | [] => None
  | (k', v) :: kvs' => if String.eqb k' k then Some v else assoc kvs' k
  end.

Definition option_value (c : ConfigParser) (section opt : string) : option string :=
  assoc (items c section) opt.

Definition has_option (c : ConfigParser) (section opt : string) : bool :=
  bool_decide (is_Some (option_value c section opt)).

(** [get] of an option the caller has checked with [has_option]. *)
Definition get (c : ConfigParser) (section opt : string) : string :=
  default EmptyString (option_value c section opt).

(** [getboolean]: [configparser]'s table of boolean states, and a
    [ValueError] for anything else. *)
Definition boolean_state (v : string) : outcome bool :=
  let l := PyStr.lower v in
  if existsb (String.eqb l) ["1"; "yes"; "true"; "on"] then Returned true
  else if existsb (String.eqb l) ["0"; "no"; "false"; "off"] then Returned false
  else Raised ValueError.

Definition getboolean (c : ConfigParser) (section opt : string) : outcome bool :=
  boolean_state (get c section opt).

End Config.

(** The first entry of the document-type table whose key equals the document
    type, case-insensitively: the loop of [get_document_type_from_file_name]. *)
Fixpoint lookup_document_type (kvs : list (string * string)) (document_type : string)
  : option string :=
  match kvs with
  | [] => None
  | (key, value) :: kvs' =>
      if String.eqb (PyStr.lower document_type) (PyStr.lower key) then Some value
      else lookup_document_type kvs' document_type
  end.

(** [get_document_type_from_file_name]: [name_part.rfind("-")] and the slice
    after it are the right half of [rsplit1]. *)
Definition get_document_type_from_file_name (config_data : ConfigParser) (file_path : string)
  : outcome (string * string) :=
  let full_file_name := PyStr.basename file_path in
  let name_part := fst (PyStr.splitext full_file_name) in
  match PyStr.rsplit1 "-" name_part with
  | None =>
      Raised (MissingDocumentTypeException
                ("File name path " +:+ file_path +:+ " has no hyphen (-) in it. Was expecting one."))
  | Some (_, document_type) =>
      let found :=
        if Config.has_section config_data "Form-Recognizer-Document-Types"
        then lookup_document_type (Config.items config_data "Form-Recognizer-Document-Types")
               document_type
        else None in
      match found with
      | Some value => Returned (document_type, value)
      | None =>
          Raised (MissingDocumentTypeException
                    ("Could not find form recognizer model for document type " +:+ document_type
                       +:+ " inferred form file name path " +:+ file_path +:+ "."))
      end
  end.

(** [get_blob_storage_connection_string] *)
Definition get_blob_storage_connection_string (config_data : ConfigParser) : outcome string :=
  if negb (Config.has_option config_data "Main" "azure-storage-account-connection-str")
  then Raised (MissingConfigException "Main.azure-storage-account-connection-str is missing in config.")
  else
    let connection_string := Config.get config_data "Main" "azure-storage-account-connection-str" in
    match string_is_not_empty (PyString connection_string) with
    | Raised e => Raised e
    | Returned false =>
        Raised (MissingConfigException
                  "Main.azure-storage-account-connection-str is present but has empty value.")
    | Returned true =>
        if PyStr.first_char_in PyStr.is_quote connection_string
           && PyStr.last_char_in PyStr.is_quote connection_string
        then Returned (PyStr.strip PyStr.is_quote connection_string)
        else Returned connection_string
    end.

(** [is_env_local] *)
Definition is_env_local (config_data : ConfigParser) : bool :=
  let env :=
    if Config.has_option config_data "Main" "env"
    then Config.get config_data "Main" "env"
    else "local" in
  String.eqb (PyStr.lower env) (PyStr.lower "local").

(** [is_env_prod]: the default is ["prod"], the comparison is with
    ["local"]. *)
Definition is_env_prod (config_data : ConfigParser) : bool :=
  let env :=
    if Config.has_option config_data "Main" "env"
    then Config.get config_data "Main" "env"
    else "prod" in
  String.eqb (PyStr.lower env) (PyStr.lower "local").

(** [configure_database], up to its call of [me.connect]: the outcome is
    the [host] the connection is registered with. *)
Definition configure_database (config_data : ConfigParser) : outcome string :=
  if negb (Config.has_option config_data "Main" "mongodb_connection_string")
  then Raised (MissingConfigException "Main.mongodb_connection_string is missing in config.")
  else
    let mongodb_connection_string := Config.get config_data "Main" "mongodb_connection_string" in
    match string_is_not_empty (PyString mongodb_connection_string) with
    | Raised e => Raised e
    | Returned false =>
        Raised (MissingConfigException
                  "Main.mongodb_connection_string is present but has empty value.")
    | Returned true =>
        if PyStr.first_char_in PyStr.is_quote mongodb_connection_string
           && PyStr.last_char_in PyStr.is_quote mongodb_connection_string
        then Returned (PyStr.strip PyStr.is_quote mongodb_connection_string)
        else Returned mongodb_connection_string
    end.

(** ** The document record *)

(** Modelled from the spec: the lifecycle entries and the result location
    of [models/input_blob_model.py], which is not among the sources; the
    stages are those the handlers append. *)
Inductive LifecycleStatusTypes : Type :=
  | PROCESSING
  | PROCESSED
  | SUCCESS
  | FAILED.

Record LifecycleStatus : Type := mkLifecycleStatus {
  status : LifecycleStatusTypes;
  message : string;
  updated_date_time : nat
}.

Record ResultJsonMetaData : Type := mkResultJsonMetaData {
  json_result_container_name : string;
  json_result_blob_path : string
}.

(** Modelled from the spec: [models/input_blob_model.py] is not among the
    sources; the fields are those the handlers read and write, an attribute
    that has not been assigned being [None]. *)
Record InputBlob : Type := mkInputBlob {
  validation_successful_blob_path : string;
  in_progress_blob_path : option string;
  success_blob_path : option string;
  failed_blob_path : option string;
  in_progress_blob_sas_url : option string;
  blob_type : option string;
  form_recognizer_model_id : option string;
  json_output : option ResultJsonMetaData;
  lifecycle_status_list : list LifecycleStatus;
  is_validation_successful : bool;
  is_processing_for_data : bool;
  is_processed_for_data : bool;
  is_processed_success : bool;
  is_processed_failed : bool
}.

Module Blob.

Definition set_in_progress_blob_path (v : option string) (b : InputBlob) : InputBlob :=
  mkInputBlob (validation_successful_blob_path b) v (success_blob_path b)
    (failed_blob_path b) (in_progress_blob_sas_url b) (blob_type b)
    (form_recognizer_model_id b) (json_output b) (lifecycle_status_list b)
    (is_validation_successful b) (is_processing_for_data b) (is_processed_for_data b)
    (is_processed_success b) (is_processed_failed b).

Definition set_success_blob_path (v : option string) (b : InputBlob) : InputBlob :=
  mkInputBlob (validation_successful_blob_path b) (in_progress_blob_path b) v
    (failed_blob_path b) (in_progress_blob_sas_url b) (blob_type b)
    (form_recognizer_model_id b) (json_output b) (lifecycle_status_list b)
    (is_validation_successful b) (is_processing_for_data b) (is_processed_for_data b)
    (is_processed_success b) (is_processed_failed b).

Definition set_failed_blob_path (v : option string) (b : InputBlob) : InputBlob :=
  mkInputBlob (validation_successful_blob_path b) (in_progress_blob_path b)
    (success_blob_path b) v (in_progress_blob_sas_url b) (blob_type b)
    (form_recognizer_model_id b) (json_output b) (lifecycle_status_list b)
    (is_validation_successful b) (is_processing_for_data b) (is_processed_for_data b)
    (is_processed_success b) (is_processed_failed b).

Definition set_in_progress_blob_sas_url (v : option string) (b : InputBlob) : InputBlob :=
  mkInputBlob (validation_successful_blob_path b) (in_progress_blob_path b)
    (success_blob_path b) (failed_blob_path b) v (blob_type b)
    (form_recognizer_model_id b) (json_output b) (lifecycle_status_list b)
    (is_validation_successful b) (is_processing_for_data b) (is_processed_for_data b)
    (is_processed_success b) (is_processed_failed b).

Definition set_document_type (ty model : option string) (b : InputBlob) : InputBlob :=
  mkInputBlob (validation_successful_blob_path b) (in_progress_blob_path b)
    (success_blob_path b) (failed_blob_path b) (in_progress_blob_sas_url b) ty
    model (json_output b) (lifecycle_status_list b)
    (is_validation_successful b) (is_processing_for_data b) (is_processed_for_data b)
    (is_processed_success b) (is_processed_failed b).

Definition set_json_output (v : option ResultJsonMetaData) (b : InputBlob) : InputBlob :=
  mkInputBlob (validation_successful_blob_path b) (in_progress_blob_path b)
    (success_blob_path b) (failed_blob_path b) (in_progress_blob_sas_url b) (blob_type b)
    (form_recognizer_model_id b) v (lifecycle_status_list b)
    (is_validation_successful b) (is_processing_for_data b) (is_processed_for_data b)
    (is_processed_success b) (is_processed_failed b).

(** [lifecycle_status_list.append(x)] *)
Definition append_lifecycle_status (x : LifecycleStatus) (b : InputBlob) : InputBlob :=
  mkInputBlob (validation_successful_blob_path b) (in_progress_blob_path b)
    (success_blob_path b) (failed_blob_path b) (in_progress_blob_sas_url b) (blob_type b)
    (form_recognizer_model_id b) (json_output b) (lifecycle_status_list b ++ [x])
    (is_validation_successful b) (is_processing_for_data b) (is_processed_for_data b)
    (is_processed_success b) (is_processed_failed b).

Definition set_is_processing_for_data (v : bool) (b : InputBlob) : InputBlob :=
  mkInputBlob (validation_successful_blob_path b) (in_progress_blob_path b)
    (success_blob_path b) (failed_blob_path b) (in_progress_blob_sas_url b) (blob_type b)
    (form_recognizer_model_id b) (json_output b) (lifecycle_status_list b)
    (is_validation_successful b) v (is_processed_for_data b)
    (is_processed_success b) (is_processed_failed b).

Definition set_is_processed_for_data (v : bool) (b : InputBlob) : InputBlob :=
  mkInputBlob (validation_successful_blob_path b) (in_progress_blob_path b)
    (success_blob_path b) (failed_blob_path b) (in_progress_blob_sas_url b) (blob_type b)
    (form_recognizer_model_id b) (json_output b) (lifecycle_status_list b)
    (is_validation_successful b) (is_processing_for_data b) v
    (is_processed_success b) (is_processed_failed b).

Definition set_is_processed_success (v : bool) (b : InputBlob) : InputBlob :=
  mkInputBlob (validation_successful_blob_path b) (in_progress_blob_path b)
    (success_blob_path b) (failed_blob_path b) (in_progress_blob_sas_url b) (blob_type b)
    (form_recognizer_model_id b) (json_output b) (lifecycle_status_list b)
    (is_validation_successful b) (is_processing_for_data b) (is_processed_for_data b)
    v (is_processed_failed b).

Definition set_is_processed_failed (v : bool) (b : InputBlob) : InputBlob :=
  mkInputBlob (validation_successful_blob_path b) (in_progress_blob_path b)
    (success_blob_path b) (failed_blob_path b) (in_progress_blob_sas_url b) (blob_type b)
    (form_recognizer_model_id b) (json_output b) (lifecycle_status_list b)
    (is_validation_successful b) (is_processing_for_data b) (is_processed_for_data b)
    (is_processed_success b) v.

End Blob.

(** ** The stores and the services the handlers talk to *)

(** What [json.dumps] is given for ["recognizer_result_data"]: the list
    holding the analysis result, or a plain string. *)
Inductive json_value : Type :=
  | JsonResultList (result_dict : string)
  | JsonString (s : string).

Record result_json : Type := mkResultJson {
  input_file_name : string;
  recognizer_result_data : json_value
}.

(** Modelled from the spec: [common/constants.py] is not among the sources;
    its folder and container names are fields here, and [Sample.spec_env]
    gives them the values of the specification.  The other fields are what
    a run reads and does not change: the configuration and the remote
    services. *)
Record Env : Type := mkEnv {
  config_data : ConfigParser;
  VALIDATION_SUCCESSFUL_SUBFOLDER : string;
  INPROGRESS_SUBFOLDER : string;
  SUCCESSFUL_SUBFOLDER : string;
  FAILED_SUBFOLDER : string;
  DEFAULT_BLOB_CONTAINER : string;
  DEFAULT_RESULT_JSON_CONTAINER : string;
  (** [BlobServiceClient.from_connection_string(conn_str)]: the SDK builds
      the client, or raises (a [ValueError] for a connection string it
      cannot parse) *)
  from_connection_string : string → outcome unit;
  (** the storage account of the connection string *)
  account_name : string;
  (** [generate_blob_sas] for a blob path *)
  generate_blob_sas : string → string;
  (** the [DocumentAnalysisClient] of the configured endpoint and key:
      [begin_analyze_document_from_url(model_id, url)] on it, followed by
      [poller.result().to_dict()] *)
  analyze_document_from_url : string → string → outcome string
}.

(** The object store and the record store.  [input_container] holds the
    names of the blobs of the input container, [result_container] the
    artifacts of the result container.  [mongodb] is the collection, one
    record per [validation_successful_blob_path]; [save_log] keeps every
    snapshot [save()] has persisted, oldest first.  The stores fail the way
    the SDKs document: copying from or deleting a blob that is not there
    raises [ResourceNotFoundError], uploading without [overwrite] to a name
    that is taken raises [ResourceExistsError]; [save()] does not fail. *)
Record World : Type := mkWorld {
  input_container : gset string;
  result_container : gmap string result_json;
  mongodb : list InputBlob;
  save_log : list InputBlob;
  clock : nat
}.

(** The state a handler runs in: the record it was handed (mutated in
    place), the [is_error] local of the batch loop, and the stores. *)
Record state : Type := mkState {
  cur : InputBlob;
  loop_is_error : bool;
  world : World
}.

Module St.

Definition set_cur (b : InputBlob) (s : state) : state :=
  mkState b (loop_is_error s) (world s).

Definition set_is_error (v : bool) (s : state) : state :=
  mkState (cur s) v (world s).

Definition set_world (w : World) (s : state) : state :=
  mkState (cur s) (loop_is_error s) w.

Definition set_input_container (c : gset string) (w : World) : World :=
  mkWorld c (result_container w) (mongodb w) (save_log w) (clock w).

Definition set_result_container (c : gmap string result_json) (w : World) : World :=
  mkWorld (input_container w) c (mongodb w) (save_log w) (clock w).

Definition set_clock (n : nat) (w : World) : World :=
  mkWorld (input_container w) (result_container w) (mongodb w) (save_log w) n.

(** The collection after [save()]: the record with the same key is
    replaced, a new one is added at the end. *)
Fixpoint upsert (b : InputBlob) (coll : list InputBlob) : list InputBlob :=
  match coll with
  | [] => [b]
  | r :: coll' =>
      if String.eqb (validation_successful_blob_path r) (validation_successful_blob_path b)
      then b :: coll'
      else r :: upsert b coll'
  end.

Definition persist (b : InputBlob) (w : World) : World :=
  mkWorld (input_container w) (result_container w) (upsert b (mongodb w))
    (save_log w ++ [b]) (clock w).

End St.

(** ** Statements: state and exceptions *)

Definition M (A : Type) : Type := state → outcome A * state.

Module Stmt.

Definition ret {A} (a : A) : M A := λ s, (Returned a, s).

Definition bind {A B} (m : M A) (k : A → M B) : M B :=
  λ s, match m s with
       | (Returned a, s') => k a s'
       | (Raised e, s') => (Raised e, s')
       end.

(** [raise e] *)
Definition raise {A} (e : exn) : M A := λ s, (Raised e, s).

(** An expression that may raise. *)
Definition lift {A} (o : outcome A) : M A := λ s, (o, s).

(** [try: body  except ...: handler e]; the handler sees the state the
    body left behind. *)
Definition try_except {A} (body : M A) (handler : exn → M A) : M A :=
  λ s, match body s with
       | (Returned a, s') => (Returned a, s')
       | (Raised e, s') => handler e s'
       end.

Definition get_blob : M InputBlob := λ s, (Returned (cur s), s).

Definition update_blob (f : InputBlob → InputBlob) : M unit :=
  λ s, (Returned tt, St.set_cur (f (cur s)) s).

Definition get_world : M World := λ s, (Returned (world s), s).

Definition update_world (f : World → World) : M unit :=
  λ s, (Returned tt, St.set_world (f (world s)) s).

Definition get_is_error : M bool := λ s, (Returned (loop_is_error s), s).

Definition assign_is_error (v : bool) : M unit :=
  λ s, (Returned tt, St.set_is_error v s).

End Stmt.

#[export] Instance M_ret : MRet M := @Stmt.ret.
#[export] Instance M_bind : MBind M := λ A B k m, Stmt.bind m k.

(** [datetime.now()], as a tick of the clock. *)
Definition datetime_now : M nat :=
  w ← Stmt.get_world;
  Stmt.update_world (St.set_clock (S (clock w)));;
  mret (clock w).

(** [input_blob.save()] *)
Definition save : M unit :=
  b ← Stmt.get_blob;
  Stmt.update_world (St.persist b).

(** [destination_blob_client.start_copy_from_url(source_blob_client.url)]:
    the source must exist. *)
Definition start_copy_from_url (source destination : string) : M unit :=
  w ← Stmt.get_world;
  if bool_decide (source ∈ input_container w)
  then Stmt.update_world (St.set_input_container ({[destination]} ∪ input_container w))
  else Stmt.raise ResourceNotFoundError.

(** [source_blob_client.delete_blob()] *)
Definition delete_blob (source : string) : M unit :=
  w ← Stmt.get_world;
  if bool_decide (source ∈ input_container w)
  then Stmt.update_world (St.set_input_container (input_container w ∖ {[source]}))
  else Stmt.raise ResourceNotFoundError.

(** [blob_client.upload_blob(data, overwrite=False)] on the result
    container. *)
Definition upload_blob (path : string) (data : result_json) : M unit :=
  w ← Stmt.get_world;
  match result_container w !! path with
  | Some _ => Stmt.raise ResourceExistsError
  | None => Stmt.update_world (St.set_result_container (<[path := data]> (result_container w)))
  end.

(** ** [services/input_blob_analysis_service.py] and
       [services/input_blob_handler.py]

    Calls to [logging] are left out: they change neither the stores nor the
    control flow. *)

Section Handlers.

Context (env : Env).

(** A [LifecycleStatus] stamped with the current time. *)
Definition lifecycle_status (st : LifecycleStatusTypes) (msg : string) : M LifecycleStatus :=
  t ← datetime_now;
  mret (mkLifecycleStatus st msg t).

(** The path substitution of the stage folder, [path.replace(from, to)]:
    a [str] method, which returns for every receiver that is a string. *)
Definition pathForStage (path fromStage toStage : string) : outcome string :=
  Returned (PyStr.replace path fromStage toStage).

(** [x.replace(old, new)] on an attribute that may be [None]. *)
Definition attr_replace (x : option string) (old new : string) : outcome string :=
  match x with
  | None => Raised AttributeError
  | Some path => pathForStage path old new
  end.

Definition move_blob_from_source_folder_to_destination_folder_in_azure_blob_storage
    (source_blob_path destination_blob_path : string) : M unit :=
  start_copy_from_url source_blob_path destination_blob_path;;
  delete_blob source_blob_path.

Definition get_sas_url (blob_path : string) : string :=
  "https://" +:+ account_name env +:+ ".blob.core.windows.net/"
    +:+ DEFAULT_BLOB_CONTAINER env +:+ "/" +:+ blob_path +:+ "?"
    +:+ generate_blob_sas env blob_path.

(** The claim transition. *)
Definition set_blob_for_processing_and_update_mongodb : M unit :=
  processing_lifecycle_status ← lifecycle_status PROCESSING "Starting blob process";
  Stmt.update_blob (Blob.append_lifecycle_status processing_lifecycle_status);;
  b ← Stmt.get_blob;
  '(ty, model) ← Stmt.lift
    (get_document_type_from_file_name (config_data env) (validation_successful_blob_path b));
  Stmt.update_blob (Blob.set_document_type (Some ty) (Some model));;
  in_progress ← Stmt.lift
    (pathForStage (validation_successful_blob_path b)
       (VALIDATION_SUCCESSFUL_SUBFOLDER env) (INPROGRESS_SUBFOLDER env));
  Stmt.update_blob (Blob.set_in_progress_blob_path (Some in_progress));;
  save;;
  move_blob_from_source_folder_to_destination_folder_in_azure_blob_storage
    (validation_successful_blob_path b) in_progress;;
  Stmt.update_blob (Blob.set_is_processing_for_data true);;
  Stmt.update_blob (Blob.set_in_progress_blob_sas_url (Some (get_sas_url in_progress)));;
  save.

(** The relocation half of the finalize transition. *)
Definition set_processing_status_and_move_completed_blobs (is_error : bool) : M unit :=
  b ← Stmt.get_blob;
  if is_error then
    failed ← Stmt.lift
      (attr_replace (in_progress_blob_path b) (INPROGRESS_SUBFOLDER env) (FAILED_SUBFOLDER env));
    Stmt.update_blob (Blob.set_failed_blob_path (Some failed));;
    save;;
    move_blob_from_source_folder_to_destination_folder_in_azure_blob_storage
      (default EmptyString (in_progress_blob_path b)) failed;;
    Stmt.update_blob (Blob.set_is_processed_success false);;
    Stmt.update_blob (Blob.set_is_processed_failed true);;
    processed_and_failed_lifecycle_status ←
      lifecycle_status FAILED "Blob moved to Failed folder in Azure-Blob-Storage";
    Stmt.update_blob (Blob.append_lifecycle_status processed_and_failed_lifecycle_status);;
    save
  else
    success ← Stmt.lift
      (attr_replace (in_progress_blob_path b) (INPROGRESS_SUBFOLDER env) (SUCCESSFUL_SUBFOLDER env));
    Stmt.update_blob (Blob.set_success_blob_path (Some success));;
    save;;
    move_blob_from_source_folder_to_destination_folder_in_azure_blob_storage
      (default EmptyString (in_progress_blob_path b)) success;;
    Stmt.update_blob (Blob.set_is_processed_success true);;
    Stmt.update_blob (Blob.set_is_processed_failed false);;
    processed_and_success_lifecycle_status ←
      lifecycle_status SUCCESS "Blob moved to Successful folder in Azure-Blob-Storage";
    Stmt.update_blob (Blob.append_lifecycle_status processed_and_success_lifecycle_status);;
    save.

(** The value of an attribute as [string_is_not_empty] receives it. *)
Definition attr_obj (x : option string) : pyobj :=
  match x with
  | Some s => PyString s
  | None => PyNone
  end.

(** [os.path.basename(x)]: a [TypeError] for [None]. *)
Definition os_path_basename (x : option string) : outcome string :=
  match x with
  | Some p => Returned (PyStr.basename p)
  | None => Raised TypeError
  end.

(** [begin_analyze_document_from_url] refuses a missing model id. *)
Definition begin_analyze_document_from_url (model_id : option string) (url : string)
  : outcome string :=
  match model_id with
  | Some m => analyze_document_from_url env m url
  | None => Raised ValueError
  end.

(** The toggle as [analyze_blob] reads it: off unless the environment is
    ["prod"] and the option says otherwise. *)
Definition analysis_use_azure_form_recognizer : outcome bool :=
  let env_name :=
    if Config.has_option (config_data env) "Main" "env"
    then Config.get (config_data env) "Main" "env"
    else "local" in
  if String.eqb env_name "prod"
  then if Config.has_option (config_data env) "Main" "use-azure-form-recognizer"
       then Config.getboolean (config_data env) "Main" "use-azure-form-recognizer"
       else Returned false
  else Returned false.

Definition disabled_marker : string :=
  "No result is generated because Form Recognizer is Disabled".

(** The branch of [analyze_blob] that calls the service. *)
Definition recognize : M json_value :=
  if negb (Config.has_option (config_data env) "Main" "form-recognizer-key")
  then Stmt.raise (MissingConfigException "Main.form-recognizer-key is missing in config.")
  else
    let form_recognizer_key := Config.get (config_data env) "Main" "form-recognizer-key" in
    key_ok ← Stmt.lift (string_is_not_empty (PyString form_recognizer_key));
    if negb key_ok
    then Stmt.raise (MissingConfigException "Main.form-recognizer-key is present but has empty value.")
    else
      if negb (Config.has_option (config_data env) "Main" "form-recognizer-endpoint")
      then Stmt.raise (MissingConfigException "Main.form_recognizer_endpoint is missing in config.")
      else
        let form_recognizer_endpoint :=
          Config.get (config_data env) "Main" "form-recognizer-endpoint" in
        endpoint_ok ← Stmt.lift (string_is_not_empty (PyString form_recognizer_endpoint));
        if negb endpoint_ok
        then Stmt.raise
               (MissingConfigException "Main.form_recognizer_endpoint is present but has empty value.")
        else
          b ← Stmt.get_blob;
          url_ok ← Stmt.lift (string_is_not_empty (attr_obj (in_progress_blob_sas_url b)));
          if url_ok : bool
          then
            result ← Stmt.lift
              (begin_analyze_document_from_url (form_recognizer_model_id b)
                 (default EmptyString (in_progress_blob_sas_url b)));
            mret (JsonResultList result)
          else Stmt.raise
                 (CitadelIDPBackendException "input_blob.in_progress_blob_sas_url should be non empty.").

(** Where the result of a document goes in the result container. *)
Definition result_json_path (in_progress : string) : string :=
  let path := PyStr.replace in_progress "/Inprogress/" "/" in
  PyStr.dirname path +:+ "/" +:+ fst (PyStr.splitext (PyStr.basename path)) +:+ ".json".

(** The first half of [analyze_blob]: what goes under
    ["recognizer_result_data"]. *)
Definition recognizer_result : M json_value :=
  use_azure_form_recognizer ← Stmt.lift analysis_use_azure_form_recognizer;
  if use_azure_form_recognizer : bool
  then recognize
  else mret (JsonString disabled_marker).

(** The second half: the result is serialised and uploaded without
    overwriting; whatever the upload raises is caught by the bare [except]
    and logged. *)
Definition store_result (result_dict : json_value) : M unit :=
  b ← Stmt.get_blob;
  name ← Stmt.lift (os_path_basename (in_progress_blob_path b));
  let final_result := mkResultJson name result_dict in
  path ← Stmt.lift (attr_replace (in_progress_blob_path b) "/Inprogress/" "/");
  let result_json_path_in_azure_blob_storage :=
    result_json_path (default EmptyString (in_progress_blob_path b)) in
  Stmt.try_except
    (upload_blob result_json_path_in_azure_blob_storage final_result;;
     Stmt.update_blob
       (Blob.set_json_output
          (Some (mkResultJsonMetaData (DEFAULT_RESULT_JSON_CONTAINER env)
                   result_json_path_in_azure_blob_storage)));;
     save)
    (λ _, mret tt).

Definition analyze_blob : M unit :=
  result_dict ← recognizer_result;
  store_result result_dict.

(** The block each branch of the batch loop ends with: mark the record
    processed, persist it, relocate by the current [is_error]. *)
Definition mark_processed_and_move : M unit :=
  Stmt.update_blob (Blob.set_is_processed_for_data true);;
  processed_lifecycle_status ← lifecycle_status PROCESSED "Blob processed successfully";
  Stmt.update_blob (Blob.append_lifecycle_status processed_lifecycle_status);;
  save;;
  is_error ← Stmt.get_is_error;
  set_processing_status_and_move_completed_blobs is_error.

(** The [try] suite of the loop. *)
Definition process_blob (use_azure_form_recognizer : bool) : M unit :=
  set_blob_for_processing_and_update_mongodb;;
  (if use_azure_form_recognizer
   then analyze_blob;; Stmt.assign_is_error false
   else Stmt.ret tt : M unit);;
  mark_processed_and_move.

(** The [except] clauses, tried in order. *)
Definition except_clauses (e : exn) : M unit :=
  if is_MissingConfigException e then mark_processed_and_move
  else if is_CitadelIDPBackendException e then mark_processed_and_move
  else mark_processed_and_move.

(** One iteration of the loop. *)
Definition handle_input_blob (use_azure_form_recognizer : bool) : M unit :=
  Stmt.try_except (process_blob use_azure_form_recognizer) except_clauses.

(** The [for] loop: [is_error] and the stores carry over from one record
    to the next; an exception leaving an iteration leaves the loop. *)
Fixpoint for_each_input_blob (use_azure_form_recognizer : bool)
    (input_blob_list : list InputBlob) (is_error : bool) (w : World)
  : outcome (list InputBlob) * World :=
  match input_blob_list with
  | [] => (Returned [], w)
  | input_blob :: rest =>
      match handle_input_blob use_azure_form_recognizer (mkState input_blob is_error w) with
      | (Returned _, s) =>
          match for_each_input_blob use_azure_form_recognizer rest (loop_is_error s) (world s) with
          | (Returned done, w') => (Returned (cur s :: done), w')
          | (Raised e, w') => (Raised e, w')
          end
      | (Raised e, s) => (Raised e, world s)
      end
  end.

(** [InputBlob.objects(is_validation_successful=True, is_processing_for_data=False)] *)
Definition objects_to_process (w : World) : list InputBlob :=
  List.filter (λ b, is_validation_successful b && negb (is_processing_for_data b)) (mongodb w).

(** The toggle as the batch loop reads it: on unless the option says
    otherwise. *)
Definition handler_use_azure_form_recognizer : outcome bool :=
  if Config.has_option (config_data env) "Main" "use-azure-form-recognizer"
  then Config.getboolean (config_data env) "Main" "use-azure-form-recognizer"
  else Returned true.

(** [utils.get_azure_storage_blob_service_client()]: the connection string
    is read, then handed to the SDK. *)
Definition get_azure_storage_blob_service_client : outcome unit :=
  match get_blob_storage_connection_string (config_data env) with
  | Raised e => Raised e
  | Returned connection_string => from_connection_string env connection_string
  end.

Definition handle_input_blob_process (w : World) : outcome (list InputBlob) * World :=
  match get_azure_storage_blob_service_client with
  | Raised e => (Raised e, w)
  | Returned blob_service_client =>
      let input_blob_list := objects_to_process w in
      match handler_use_azure_form_recognizer with
      | Raised e => (Raised e, w)
      | Returned use_azure_form_recognizer =>
          for_each_input_blob use_azure_form_recognizer input_blob_list true w
      end
  end.

End Handlers.

(** ** [services/main_service.py] *)

Section MainService.

Context (env : Env).

(** [str(ex)] for the exception that is wrapped; what the interpreter and
    the SDKs print for their own exceptions is left open. *)
Context (str_of : exn → string).


End MainService.

(** ** The stage folders of the specification, and sample runs *)

Module Sample.

(** A stand-in for the storage SDK: it builds a client from a connection
    string that names an account and its key, and raises the [ValueError]
    of the SDK for the others. *)
Definition sdk_client (connection_string : string) : outcome unit :=
  if PyStr.contains connection_string "AccountName="
     && PyStr.contains connection_string "AccountKey="
  then Returned tt
  else Raised ValueError.

(** Modelled from the spec: the stage folders are the literal tokens
    [Validation-Successful], [Inprogress], [Successful] and [Failed]; the
    two container names are configured constants whose values the
    specification leaves open. *)
Definition spec_env (config : ConfigParser) (service : string → string → outcome string) : Env :=
  {| config_data := config;
     VALIDATION_SUCCESSFUL_SUBFOLDER := "Validation-Successful";
     INPROGRESS_SUBFOLDER := "Inprogress";
     SUCCESSFUL_SUBFOLDER := "Successful";
     FAILED_SUBFOLDER := "Failed";
     DEFAULT_BLOB_CONTAINER := "input";
     DEFAULT_RESULT_JSON_CONTAINER := "result";
     from_connection_string := sdk_client;
     account_name := "account";
     generate_blob_sas := λ _, "sig";
     analyze_document_from_url := service |}.

(** A configuration with every option of the analysis present, the
    toggle being [toggle] when given. *)
Definition main_section (env_name : string) (toggle : option string) : list (string * string) :=
  [("env", env_name);
   ("azure-storage-account-connection-str", "AccountName=account;AccountKey=key");
   ("form-recognizer-key", "key");
   ("form-recognizer-endpoint", "https://recognizer")]
  ++ match toggle with
     | Some v => [("use-azure-form-recognizer", v)]
     | None => []
     end.

Definition config (env_name : string) (toggle : option string) : ConfigParser :=
  <["Main" := main_section env_name toggle]>
    (<["Form-Recognizer-Document-Types" := [("receipt", "model-A")]]> ∅).

(** A record as validation leaves it. *)
Definition validated (path : string) : InputBlob :=
  {| validation_successful_blob_path := path;
     in_progress_blob_path := None;
     success_blob_path := None;
     failed_blob_path := None;
     in_progress_blob_sas_url := None;
     blob_type := None;
     form_recognizer_model_id := None;
     json_output := None;
     lifecycle_status_list := [];
     is_validation_successful := true;
     is_processing_for_data := false;
     is_processed_for_data := false;
     is_processed_success := false;
     is_processed_failed := false |}.

Definition receipt_1001 : string := "Company/acme/Validation-Successful/1001-receipt.jpg".
Definition receipt_1002 : string := "Company/acme/Validation-Successful/1002-receipt.jpg".
Definition no_hyphen_1003 : string := "Company/acme/Validation-Successful/1003.jpg".

(** A world holding the given validated documents, in storage and in the
    record store. *)
Definition world_of (paths : list string) : World :=
  {| input_container := list_to_set paths;
     result_container := ∅;
     mongodb := validated <$> paths;
     save_log := [];
     clock := 0 |}.

(** A service that answers, and one that fails with a network error on
    the second receipt only. *)
Definition service_ok : string → string → outcome string :=
  λ _ _, Returned "{}".

Definition service_fails_on_1002 : string → string → outcome string :=
  λ _ url, if PyStr.contains url "1002" then Raised (ServiceError "connection reset")
           else Returned "{}".

Definition service_down : string → string → outcome string :=
  λ _ _, Raised (ServiceError "connection reset").

(** An artifact left in the result container by an earlier run. *)
Definition old_artifact : result_json :=
  mkResultJson "1001-receipt.jpg" (JsonString "earlier run").

Definition world_with_artifact : World :=
  St.set_result_container (<["Company/acme/1001-receipt.json" := old_artifact]> ∅)
    (world_of [receipt_1001]).

End Sample.

(** ** Vocabulary of the properties *)

(** A statement keeps [I] when [I] holds of the state it leaves behind,
    whether it returns or raises. *)
Definition preserves {A} (I : state → Prop) (m : M A) : Prop :=
  ∀ s, I s → I (m s).2.

(** The stages a record has been through. *)
Definition statuses (b : InputBlob) : list LifecycleStatusTypes :=
  status <$> lifecycle_status_list b.

(** Neither outcome flag is set. *)
Definition no_outcome (b : InputBlob) : bool :=
  negb (is_processed_success b) && negb (is_processed_failed b).

(** Exactly one outcome flag is set. *)
Definition one_outcome (b : InputBlob) : bool :=
  xorb (is_processed_success b) (is_processed_failed b).

(** At most one outcome flag is set, and none on a record that is not
    marked processed. *)
Definition flags_ok (b : InputBlob) : bool :=
  negb (is_processed_success b && is_processed_failed b)
  && (is_processed_for_data b || no_outcome b).

(** What is in the container after a blob has been copied and its source
    deleted. *)
Definition moved (source destination : string) (c : gset string) : gset string :=
  ({[destination]} ∪ c) ∖ {[source]}.

(** The result container holds artifact [v] at path [k]. *)
Definition holds_artifact (k : string) (v : result_json) (s : state) : Prop :=
  result_container (world s) !! k = Some v.

(** *** The record at the points where the handlers persist it *)

(** The in-progress path the claim computes. *)
Definition in_progress_path (env : Env) (b : InputBlob) : string :=
  PyStr.replace (validation_successful_blob_path b)
    (VALIDATION_SUCCESSFUL_SUBFOLDER env) (INPROGRESS_SUBFOLDER env).

(** The record at the first [save()] of the claim, made at time [t]. *)
Definition claiming (env : Env) (ty model : string) (t : nat) (b : InputBlob) : InputBlob :=
  Blob.set_in_progress_blob_path (Some (in_progress_path env b))
    (Blob.set_document_type (Some ty) (Some model)
       (Blob.append_lifecycle_status
          (mkLifecycleStatus PROCESSING "Starting blob process" t) b)).

(** The record at the end of the claim. *)
Definition claimed (env : Env) (ty model : string) (t : nat) (b : InputBlob) : InputBlob :=
  Blob.set_in_progress_blob_sas_url (Some (get_sas_url env (in_progress_path env b)))
    (Blob.set_is_processing_for_data true (claiming env ty model t b)).

(** The record once marked processed, at time [t]. *)
Definition marked (t : nat) (b : InputBlob) : InputBlob :=
  Blob.append_lifecycle_status
    (mkLifecycleStatus PROCESSED "Blob processed successfully" t)
    (Blob.set_is_processed_for_data true b).

(** Where the relocation sends the object at [in_progress]. *)
Definition destination (env : Env) (is_error : bool) (in_progress : string) : string :=
  PyStr.replace in_progress (INPROGRESS_SUBFOLDER env)
    (if is_error then FAILED_SUBFOLDER env else SUCCESSFUL_SUBFOLDER env).

(** The record at the first [save()] of the relocation. *)
Definition relocating (env : Env) (is_error : bool) (in_progress : string) (b : InputBlob)
  : InputBlob :=
  if is_error
  then Blob.set_failed_blob_path (Some (destination env true in_progress)) b
  else Blob.set_success_blob_path (Some (destination env false in_progress)) b.

(** The record at the end of the relocation, made at time [t]. *)
Definition relocated (env : Env) (is_error : bool) (in_progress : string) (t : nat)
    (b : InputBlob) : InputBlob :=
  if is_error
  then Blob.append_lifecycle_status
         (mkLifecycleStatus FAILED "Blob moved to Failed folder in Azure-Blob-Storage" t)
         (Blob.set_is_processed_failed true
            (Blob.set_is_processed_success false (relocating env true in_progress b)))
  else Blob.append_lifecycle_status
         (mkLifecycleStatus SUCCESS "Blob moved to Successful folder in Azure-Blob-Storage" t)
         (Blob.set_is_processed_failed false
            (Blob.set_is_processed_success true (relocating env false in_progress b))).

(** The record once its result has been stored. *)
Definition with_result (env : Env) (in_progress : string) (b : InputBlob) : InputBlob :=
  Blob.set_json_output
    (Some (mkResultJsonMetaData (DEFAULT_RESULT_JSON_CONTAINER env)
             (result_json_path in_progress))) b.

(** *** Invariants of a run *)

(** The object of the record is in the container at the in-progress path
    the record holds: the relocation has what it needs. *)
Definition relocatable (ip : string) (s : state) : Prop :=
  in_progress_blob_path (cur s) = Some ip ∧ ip ∈ input_container (world s).

(** The record in hand and every snapshot persisted so far have well-formed
    flags. *)
Definition flags_kept (s : state) : Prop :=
  flags_ok (cur s) = true ∧ Forall (λ b, flags_ok b = true) (save_log (world s)).

(** The record store has persisted [old], then [snap], then possibly more;
    the record is marked processed and its claim flag is [claim]. *)
Definition aborted_claim_trace (claim : bool) (old : list InputBlob) (snap : InputBlob)
    (s : state) : Prop :=
  is_processing_for_data (cur s) = claim
  ∧ is_processed_for_data (cur s) = true
  ∧ ∃ rest, save_log (world s) = old ++ snap :: rest.

(** The result container is [rc]. *)
Definition results_are (rc : gmap string result_json) (s : state) : Prop :=
  result_container (world s) = rc.

(** The record is claimed, relocatable from [ip], and the loop variable and
    the lifecycle entries are as given. *)
Definition claimed_with (ip : string) (is_error : bool) (entries : list LifecycleStatus)
    (s : state) : Prop :=
  relocatable ip s
  ∧ loop_is_error s = is_error
  ∧ lifecycle_status_list (cur s) = entries.

(** *** The record store by key *)

(** The first record of the collection stored under [k]. *)
Fixpoint find_record (k : string) (coll : list InputBlob) : option InputBlob :=
  match coll with
  | [] => None
  | r :: coll' =>
      if String.eqb (validation_successful_blob_path r) k then Some r
      else find_record k coll'
  end.

(** The record keeps its key and its validation flag, and its lifecycle
    entries and the snapshots of the record store extend [entries] and
    [snaps]. *)
Definition extends_history (k : string) (v : bool) (entries : list LifecycleStatus)
    (snaps : list InputBlob) (s : state) : Prop :=
  validation_successful_blob_path (cur s) = k
  ∧ is_validation_successful (cur s) = v
  ∧ (∃ more, lifecycle_status_list (cur s) = entries ++ more)
  ∧ ∃ more, save_log (world s) = snaps ++ more.

(** The record is stored under [k], and the record store holds [r] under
    the other key [k']. *)
Definition keeps_record (k k' : string) (r : option InputBlob) (s : state) : Prop :=
  validation_successful_blob_path (cur s) = k
  ∧ find_record k' (mongodb (world s)) = r.

(** The loop variable is [v]. *)
Definition is_error_is (v : bool) (s : state) : Prop := loop_is_error s = v.

(** The record is stored under [k]. *)
Definition key_is (k : string) (s : state) : Prop :=
  validation_successful_blob_path (cur s) = k.

(** The record is claimed with in-progress path [ip] and the input
    container is [c]. *)
Definition claimed_in (ip : string) (c : gset string) (s : state) : Prop :=
  in_progress_blob_path (cur s) = Some ip
  ∧ is_processing_for_data (cur s) = true
  ∧ input_container (world s) = c.

(** * Properties *)

(** ** Strings *)

Section StringFacts.

Import PyStr.

Lemma append_nil (t : string) : EmptyString +:+ t = t.
Proof. reflexivity. Qed.

Lemma append_cons (c : ascii) (s t : string) : String c s +:+ t = String c (s +:+ t).
Proof. reflexivity. Qed.

Lemma append_empty_r (s : string) : s +:+ EmptyString = s.
Proof. induction s as [|c s IH]; [done | by rewrite append_cons, IH]. Qed.

Lemma append_assoc (x y z : string) : (x +:+ y) +:+ z = x +:+ (y +:+ z).
Proof. induction x as [|c x IH]; [done | by rewrite !append_cons, IH]. Qed.

Lemma length_append (x y : string) :
  String.length (x +:+ y) = String.length x + String.length y.
Proof. induction x as [|c x IH]; [done | by rewrite append_cons; simpl; rewrite IH]. Qed.

Lemma startswith_empty (s : string) : startswith s EmptyString = true.
Proof. by destruct s. Qed.

Lemma startswith_append (p r : string) : startswith (p +:+ r) p = true.
Proof.
  induction p as [|c p IH]; [apply startswith_empty |].
  rewrite append_cons. simpl. by rewrite Ascii.eqb_refl.
Qed.

Lemma startswith_cons (a b : ascii) (s p : string) :
  startswith (String b s) (String a p) = true ↔ a = b ∧ startswith s p = true.
Proof.
  simpl. destruct (Ascii.eqb a b) eqn:E.
  - apply Ascii.eqb_eq in E. tauto.
  - apply Ascii.eqb_neq in E. split; [done | tauto].
Qed.

Lemma startswith_split (s p : string) :
  startswith s p = true → ∃ r, s = p +:+ r.
Proof.
  revert s. induction p as [|a p IH]; intros s H.
  - by exists s.
  - destruct s as [|b s]; [done |].
    apply startswith_cons in H as [-> H].
    destruct (IH _ H) as [r ->]. by exists r.
Qed.

(** A prefix no longer than [x] of [x +:+ r] is a prefix of [x]. *)
Lemma startswith_append_short (x r v : string) :
  startswith (x +:+ r) v = true →
  (String.length v ≤ String.length x)%nat →
  startswith x v = true.
Proof.
  revert v. induction x as [|c x IH]; intros v H Hlen.
  - destruct v; [done | simpl in Hlen; lia].
  - destruct v as [|a v]; [done |].
    rewrite append_cons in H. simpl in Hlen. apply startswith_cons in H as [-> H].
    apply startswith_cons. split; [done |]. apply IH; [done | lia].
Qed.

Lemma contains_startswith (s old : string) :
  contains s old = false → startswith s old = false.
Proof.
  destruct s as [|c s].
  - change (contains EmptyString old) with (startswith EmptyString old || false).
    intros H. by apply orb_false_elim in H as [? _].
  - change (contains (String c s) old) with (startswith (String c s) old || contains s old).
    intros H. by apply orb_false_elim in H as [? _].
Qed.

Lemma contains_tail (c : ascii) (s old : string) :
  contains (String c s) old = false → contains s old = false.
Proof.
  change (contains (String c s) old) with (startswith (String c s) old || contains s old).
  intros H. by apply orb_false_elim in H as [_ ?].
Qed.

Lemma contains_append_r (x r old : string) :
  contains (x +:+ r) old = false → contains r old = false.
Proof.
  induction x as [|c x IH]; [done |]. rewrite append_cons.
  intros H. apply contains_tail in H. by apply IH.
Qed.

Lemma contains_cons (c : ascii) (s old : string) :
  contains (String c s) old = startswith (String c s) old || contains s old.
Proof. reflexivity. Qed.

Lemma find_cons (c : ascii) (s old : string) :
  find (String c s) old
  = if startswith (String c s) old then Some 0 else S <$> find s old.
Proof. reflexivity. Qed.

Lemma find_None_contains (s old : string) :
  find s old = None ↔ contains s old = false.
Proof.
  induction s as [|c s IH].
  - destruct old; simpl; split; congruence.
  - rewrite find_cons, contains_cons.
    destruct (startswith (String c s) old); simpl; [split; congruence |].
    rewrite <- IH. destruct (find s old); simpl; split; congruence.
Qed.

(** *** The scan of [replace] *)

Lemma replace_scan_skip (old new x r : string) :
  replace_scan old new (String.length x) (x +:+ r) = replace_scan old new 0 r.
Proof.
  induction x as [|c x IH]; [by destruct r |].
  rewrite append_cons. simpl. apply IH.
Qed.

Lemma replace_scan_match (old new r : string) :
  old ≠ EmptyString →
  replace_scan old new 0 (old +:+ r) = new +:+ replace_scan old new 0 r.
Proof.
  intros Hne.
  assert (Hp : startswith (old +:+ r) old = true) by apply startswith_append.
  rewrite <- (replace_scan_skip old new (PyStr.drop 1 old) r).
  destruct old as [|a o]; [done |].
  rewrite append_cons in *. simpl replace_scan at 1.
  simpl in Hp. by rewrite Hp.
Qed.

Lemma replace_scan_nomatch (old new : string) (c : ascii) (s : string) :
  startswith (String c s) old = false →
  replace_scan old new 0 (String c s) = String c (replace_scan old new 0 s).
Proof. intros H. simpl replace_scan. simpl in H. by rewrite H. Qed.

Lemma replace_scan_absent (old new s : string) :
  contains s old = false → replace_scan old new 0 s = s.
Proof.
  induction s as [|c s IH]; [done |]. intros H.
  rewrite replace_scan_nomatch by by apply contains_startswith.
  f_equal. apply IH. by eapply contains_tail.
Qed.

Lemma replace_absent (s old new : string) :
  contains s old = false → replace s old new = s.
Proof.
  destruct old as [|a o].
  - intros H. apply contains_startswith in H. by rewrite startswith_empty in H.
  - apply replace_scan_absent.
Qed.

(** [replace] rewrites the first occurrence and goes on after it. *)
Lemma replace_scan_find (old new s : string) (i : nat) :
  old ≠ EmptyString →
  find s old = Some i →
  replace_scan old new 0 s
  = take i s +:+ new +:+ replace_scan old new 0 (drop (i + String.length old) s).
Proof.
  intros Hne. revert i. induction s as [|c s IH]; intros i H.
  - simpl in H. by destruct old.
  - rewrite find_cons in H.
    destruct (startswith (String c s) old) eqn:Hp.
    + injection H as <-. destruct (startswith_split _ _ Hp) as [r Hr].
      rewrite Hr, replace_scan_match by done.
      change (take 0 (old +:+ r)) with EmptyString. rewrite append_nil.
      do 2 f_equal. clear. induction old as [|a o IHo]; [by destruct r | done].
    + destruct (find s old) as [j|] eqn:Hj; [| done]. injection H as <-.
      rewrite replace_scan_nomatch by done.
      change (take (S j) (String c s)) with (String c (take j s)).
      rewrite append_cons. f_equal. by apply IH.
Qed.

End StringFacts.

(** ** Round trips of [replace] *)

Section RoundTrip.

Import PyStr.

Lemma borderless_from_spec (b u v : string) :
  borderless_from b (u +:+ v) = true → v ≠ EmptyString → startswith b v = false.
Proof.
  induction u as [|c u IH]; intros H Hv.
  - rewrite append_nil in H. destruct v as [|a v]; [done |].
    simpl in H. apply andb_true_iff in H as [H _]. by apply negb_true_iff in H.
  - rewrite append_cons in H. simpl in H.
    apply andb_true_iff in H as [_ H]. by apply IH.
Qed.

Lemma unbordered_spec (b u v : string) :
  unbordered b = true →
  b = u +:+ v → u ≠ EmptyString → v ≠ EmptyString →
  startswith b v = false.
Proof.
  intros Hb -> Hu Hv. destruct u as [|c u]; [done |].
  rewrite append_cons in Hb. simpl in Hb. rewrite <- append_cons in Hb.
  by eapply borderless_from_spec.
Qed.

Lemma unbordered_nonempty (b : string) : unbordered b = true → b ≠ EmptyString.
Proof. by destruct b. Qed.

Context (A B : string).
Hypothesis A_nonempty : A ≠ EmptyString.
Hypothesis B_unbordered : unbordered B = true.

(** Where the text produced by replacing [A] with [B] continues a started
    copy of [B], the source text does so too, unless the copy starts at a
    replaced [A]. *)
Lemma startswith_replace_inv (p u v : string) :
  B = u +:+ v → v ≠ EmptyString →
  startswith (replace_scan A B 0 p) v = true →
  (u = EmptyString ∧ startswith p A = true) ∨ startswith p v = true.
Proof.
  revert u v. induction p as [|c p IH]; intros u v HB Hv H.
  - simpl in H. by destruct v.
  - destruct (startswith (String c p) A) eqn:HA.
    + destruct u as [|d u]; [by left |]. exfalso.
      destruct (startswith_split _ _ HA) as [r Hr].
      rewrite Hr, replace_scan_match in H by done.
      apply startswith_append_short in H.
      * rewrite (unbordered_spec B (String d u) v) in H; done.
      * rewrite HB, length_append. simpl. lia.
    + rewrite replace_scan_nomatch in H by done.
      destruct v as [|a v]; [done |].
      apply startswith_cons in H as [-> H]. right.
      apply startswith_cons. split; [done |].
      destruct v as [|a' v']; [apply startswith_empty |].
      destruct (IH (u +:+ String c EmptyString) (String a' v')) as [[Hu _] | ?]; try done.
      * by rewrite append_assoc.
      * by destruct u.
Qed.

Lemma replace_scan_round_trip (n : nat) (p : string) :
  (String.length p ≤ n)%nat →
  contains p B = false →
  replace_scan B A 0 (replace_scan A B 0 p) = p.
Proof.
  revert p. induction n as [|n IHn]; intros p Hn Hc.
  - by destruct p; [| simpl in Hn; lia].
  - destruct p as [|c p]; [done |].
    destruct (startswith (String c p) A) eqn:HA.
    + destruct (startswith_split _ _ HA) as [r Hr]. rewrite Hr in *.
      rewrite replace_scan_match by done.
      rewrite replace_scan_match by by apply unbordered_nonempty.
      f_equal. apply IHn.
      * rewrite length_append in Hn. destruct A; [done | simpl in Hn; lia].
      * by eapply contains_append_r.
    + rewrite replace_scan_nomatch by done.
      rewrite replace_scan_nomatch.
      * f_equal. apply IHn; [simpl in Hn; lia | by eapply contains_tail].
      * destruct (startswith (String c (replace_scan A B 0 p)) B) eqn:HB; [| done].
        rewrite <- (replace_scan_nomatch A B) in HB by done.
        apply (startswith_replace_inv _ EmptyString B) in HB as [[_ ?] | HB]; try done.
        -- congruence.
        -- apply contains_startswith in Hc. congruence.
        -- by apply unbordered_nonempty.
Qed.

End RoundTrip.

Lemma replace_round_trip (A B p : string) :
  A ≠ EmptyString →
  PyStr.unbordered B = true →
  PyStr.contains p B = false →
  PyStr.replace (PyStr.replace p A B) B A = p.
Proof.
  intros HA HB Hc.
  pose proof (replace_scan_round_trip A B HA HB (String.length p) p (le_n _) Hc) as H.
  unfold PyStr.replace. destruct A; [done |]. by destruct B.
Qed.

(** ** [string_is_not_empty] *)

(** C10: on a string [s] the function returns whether [len(s) > 0]; its
    guard [str is not None] looks at the built-in type and is always true,
    so for [None] the function never returns [False]: [len(None)] raises a
    [TypeError]. *)
Theorem string_is_not_empty_spec :
  (∀ s : string,
      string_is_not_empty (PyString s) = Returned (bool_decide (0 < String.length s)%nat))
  ∧ is_not_None PyTypeStr = true
  ∧ string_is_not_empty PyNone = Raised TypeError
  ∧ string_is_not_empty PyNone ≠ Returned false.
Proof.
  repeat split; try done.
  intros s. unfold string_is_not_empty. simpl. f_equal.
  destruct (String.length s); by simpl.
Qed.

(** ** The path substitution *)

(** The four stage folders of the specification never overlap themselves. *)
Lemma stage_folders_unbordered :
  Forall (λ b, PyStr.unbordered b = true)
    ["Validation-Successful"; "Inprogress"; "Successful"; "Failed"].
Proof. repeat constructor. Qed.

(** C6, as the specification states it, fails: on a path without the
    [Inprogress] segment the substitution raises nothing and hands the path
    back. *)
Lemma pathForStage_absent_segment_returns :
  PyStr.contains "Company/acme/Successful/1001-receipt.jpg" "Inprogress" = false
  ∧ pathForStage "Company/acme/Successful/1001-receipt.jpg" "Inprogress" "Failed"
    = Returned "Company/acme/Successful/1001-receipt.jpg"
  ∧ ¬ raises (pathForStage "Company/acme/Successful/1001-receipt.jpg" "Inprogress" "Failed").
Proof. repeat split; [by vm_compute.. | by intros []]. Qed.

(** C6, amended: the substitution is a pure string function that touches no
    store and always returns; a path without the [fromStage] segment comes
    back unchanged, and otherwise the first occurrence of the segment is
    replaced by [toStage] and the rest of the path is treated the same way. *)
Theorem pathForStage_total (path fromStage toStage : string) :
  ∃ newPath,
    pathForStage path fromStage toStage = Returned newPath
    ∧ (∀ s : state, Stmt.lift (pathForStage path fromStage toStage) s = (Returned newPath, s))
    ∧ (PyStr.contains path fromStage = false → newPath = path)
    ∧ (∀ i, fromStage ≠ EmptyString →
            PyStr.find path fromStage = Some i →
            newPath = PyStr.take i path +:+ toStage
                        +:+ PyStr.replace (PyStr.drop (i + String.length fromStage) path)
                              fromStage toStage).
Proof.
  exists (PyStr.replace path fromStage toStage). repeat split.
  - apply replace_absent.
  - intros i Hne Hi. unfold PyStr.replace.
    destruct fromStage as [|a f]; [done |]. by apply replace_scan_find.
Qed.

Lemma pathForStage_total_witness :
  pathForStage "Company/acme/Inprogress/1001-receipt.jpg" "Inprogress" "Failed"
  = Returned "Company/acme/Failed/1001-receipt.jpg".
Proof.
  destruct (pathForStage_total "Company/acme/Inprogress/1001-receipt.jpg" "Inprogress" "Failed")
    as (q & Hq & _ & _ & Hfind).
  rewrite Hq. f_equal. rewrite (Hfind 13); [reflexivity | discriminate | reflexivity].
Defined.

(** C7, as the specification states it, fails: a company folder named like
    the target stage is rewritten on the way back. *)
Lemma pathForStage_round_trip_fails :
  pathForStage "Company/Failed/Inprogress/1001-receipt.jpg" "Inprogress" "Failed"
  = Returned "Company/Failed/Failed/1001-receipt.jpg"
  ∧ pathForStage "Company/Failed/Failed/1001-receipt.jpg" "Failed" "Inprogress"
    = Returned "Company/Inprogress/Inprogress/1001-receipt.jpg"
  ∧ "Company/Inprogress/Inprogress/1001-receipt.jpg"
    ≠ "Company/Failed/Inprogress/1001-receipt.jpg".
Proof. repeat split; by vm_compute. Qed.

(** C7, amended: substituting stage [A] by [B] and then [B] by [A] gives
    the path back whenever the path does not already contain [B], for a
    non-empty [A] and a [B] that cannot overlap itself (as none of the four
    stage folders can). *)
Theorem pathForStage_round_trip (p A B : string) :
  A ≠ EmptyString →
  PyStr.unbordered B = true →
  PyStr.contains p B = false →
  ∃ q, pathForStage p A B = Returned q ∧ pathForStage q B A = Returned p.
Proof.
  intros HA HB Hc. exists (PyStr.replace p A B). split; [done |].
  unfold pathForStage. f_equal. by apply replace_round_trip.
Qed.

Lemma pathForStage_round_trip_witness :
  ∃ q, pathForStage "Company/acme/Inprogress/1001-receipt.jpg" "Inprogress" "Failed" = Returned q
       ∧ pathForStage q "Failed" "Inprogress"
         = Returned "Company/acme/Inprogress/1001-receipt.jpg".
Proof.
  apply pathForStage_round_trip; [discriminate | reflexivity | reflexivity].
Defined.

(** ** Running statements *)

Ltac unfold_stmt :=
  unfold mbind, M_bind, mret, M_ret, Stmt.bind, Stmt.ret, Stmt.raise, Stmt.lift,
    Stmt.try_except, Stmt.get_blob, Stmt.update_blob, Stmt.get_world,
    Stmt.update_world, Stmt.get_is_error, Stmt.assign_is_error in *.

Lemma bind_returned {A B} (m : M A) (k : A → M B) (s s' : state) (a : A) :
  m s = (Returned a, s') → (m ≫= k) s = k a s'.
Proof. intros H. unfold_stmt. by rewrite H. Qed.

Lemma bind_raised {A B} (m : M A) (k : A → M B) (s s' : state) (e : exn) :
  m s = (Raised e, s') → (m ≫= k) s = (Raised e, s').
Proof. intros H. unfold_stmt. by rewrite H. Qed.

Lemma try_returned {A} (m : M A) (h : exn → M A) (s s' : state) (a : A) :
  m s = (Returned a, s') → Stmt.try_except m h s = (Returned a, s').
Proof. intros H. unfold_stmt. by rewrite H. Qed.

Lemma try_raised {A} (m : M A) (h : exn → M A) (s s' : state) (e : exn) :
  m s = (Raised e, s') → Stmt.try_except m h s = h e s'.
Proof. intros H. unfold_stmt. by rewrite H. Qed.

(** *** Rules for [preserves] *)

Section Preserves.

Context (I : state → Prop).

Lemma preserves_ret {A} (a : A) : preserves I (mret a).
Proof. by intros s. Qed.

Lemma preserves_raise {A} (e : exn) : preserves I (Stmt.raise (A := A) e).
Proof. by intros s. Qed.

Lemma preserves_lift {A} (o : outcome A) : preserves I (Stmt.lift o).
Proof. by intros s. Qed.

Lemma preserves_get_blob : preserves I Stmt.get_blob.
Proof. by intros s. Qed.

Lemma preserves_get_world : preserves I Stmt.get_world.
Proof. by intros s. Qed.

Lemma preserves_get_is_error : preserves I Stmt.get_is_error.
Proof. by intros s. Qed.

Lemma preserves_bind {A B} (m : M A) (k : A → M B) :
  preserves I m → (∀ a, preserves I (k a)) → preserves I (m ≫= k).
Proof.
  intros Hm Hk s Hs. specialize (Hm s Hs). unfold_stmt.
  destruct (m s) as [[a|e] s']; simpl in *; [by apply Hk | done].
Qed.

Lemma preserves_try {A} (m : M A) (h : exn → M A) :
  preserves I m → (∀ e, preserves I (h e)) → preserves I (Stmt.try_except m h).
Proof.
  intros Hm Hh s Hs. specialize (Hm s Hs). unfold_stmt.
  destruct (m s) as [[a|e] s']; simpl in *; [done | by apply Hh].
Qed.

Lemma preserves_update_blob (f : InputBlob → InputBlob) :
  (∀ s, I s → I (St.set_cur (f (cur s)) s)) → preserves I (Stmt.update_blob f).
Proof. intros H s Hs. by apply H. Qed.

Lemma preserves_update_world (f : World → World) :
  (∀ s, I s → I (St.set_world (f (world s)) s)) → preserves I (Stmt.update_world f).
Proof. intros H s Hs. by apply H. Qed.

Lemma preserves_assign_is_error (v : bool) :
  (∀ s, I s → I (St.set_is_error v s)) → preserves I (Stmt.assign_is_error v).
Proof. intros H s Hs. by apply H. Qed.

Lemma preserves_datetime_now :
  (∀ s, I s → I (St.set_world (St.set_clock (S (clock (world s))) (world s)) s)) →
  preserves I datetime_now.
Proof. intros H s Hs. by apply H. Qed.

Lemma preserves_save :
  (∀ s, I s → I (St.set_world (St.persist (cur s) (world s)) s)) →
  preserves I save.
Proof. intros H s Hs. by apply H. Qed.

Lemma preserves_start_copy_from_url (source destination : string) :
  (∀ s, I s →
        I (St.set_world
             (St.set_input_container ({[destination]} ∪ input_container (world s)) (world s)) s)) →
  preserves I (start_copy_from_url source destination).
Proof.
  intros H s Hs. unfold start_copy_from_url. unfold_stmt. simpl.
  case_bool_decide; simpl; [by apply H | done].
Qed.

Lemma preserves_delete_blob (source : string) :
  (∀ s, I s →
        I (St.set_world
             (St.set_input_container (input_container (world s) ∖ {[source]}) (world s)) s)) →
  preserves I (delete_blob source).
Proof.
  intros H s Hs. unfold delete_blob. unfold_stmt. simpl.
  case_bool_decide; simpl; [by apply H | done].
Qed.

Lemma preserves_upload_blob (path : string) (data : result_json) :
  (∀ s, I s → result_container (world s) !! path = None →
        I (St.set_world
             (St.set_result_container (<[path := data]> (result_container (world s))) (world s)) s)) →
  preserves I (upload_blob path data).
Proof.
  intros H s Hs. unfold upload_blob. unfold_stmt. simpl.
  destruct (result_container (world s) !! path) eqn:E; simpl; [done | by apply H].
Qed.

End Preserves.

Ltac preserves_step :=
  lazymatch goal with
  | |- preserves _ (mbind _ _) => apply preserves_bind; [| intros ?]
  | |- preserves _ (Stmt.try_except _ _) => apply preserves_try; [| intros ?]
  | |- preserves _ (mret _) => apply preserves_ret
  | |- preserves _ (Stmt.ret _) => apply (preserves_ret _ _)
  | |- preserves _ (Stmt.raise _) => apply preserves_raise
  | |- preserves _ (Stmt.lift _) => apply preserves_lift
  | |- preserves _ Stmt.get_blob => apply preserves_get_blob
  | |- preserves _ Stmt.get_world => apply preserves_get_world
  | |- preserves _ Stmt.get_is_error => apply preserves_get_is_error
  | |- preserves _ (Stmt.update_blob _) => apply preserves_update_blob
  | |- preserves _ (Stmt.update_world _) => apply preserves_update_world
  | |- preserves _ (Stmt.assign_is_error _) => apply preserves_assign_is_error
  | |- preserves _ datetime_now => apply preserves_datetime_now
  | |- preserves _ save => apply preserves_save
  | |- preserves _ (start_copy_from_url _ _) => apply preserves_start_copy_from_url
  | |- preserves _ (delete_blob _) => apply preserves_delete_blob
  | |- preserves _ (upload_blob _ _) => apply preserves_upload_blob
  | |- preserves _ (if ?c then _ else _) => destruct c
  | |- preserves _ (match ?x with _ => _ end) => destruct x
  | |- preserves _ (let _ := _ in _) => cbv zeta
  end.

Ltac unfold_handlers :=
  unfold handle_input_blob, process_blob, except_clauses, mark_processed_and_move,
    set_blob_for_processing_and_update_mongodb, analyze_blob, recognizer_result,
    recognize, store_result, set_processing_status_and_move_completed_blobs,
    move_blob_from_source_folder_to_destination_folder_in_azure_blob_storage,
    lifecycle_status.

Ltac preserves_steps := unfold_handlers; repeat preserves_step.

(** ** What the handlers leave alone *)

Lemma handle_input_blob_keeps_artifacts env use_fr k v :
  preserves (holds_artifact k v) (handle_input_blob env use_fr).
Proof.
  preserves_steps; unfold holds_artifact; intros [b ie w]; simpl; try done.
  intros Hk Hnone. rewrite lookup_insert_ne; [done | congruence].
Qed.

(** ** The handlers, step by step *)

Ltac unfold_steps :=
  unfold set_blob_for_processing_and_update_mongodb, mark_processed_and_move,
    set_processing_status_and_move_completed_blobs, store_result, recognizer_result,
    lifecycle_status, datetime_now, save, upload_blob, pathForStage, attr_replace,
    os_path_basename,
    move_blob_from_source_folder_to_destination_folder_in_azure_blob_storage,
    start_copy_from_url, delete_blob;
  unfold_stmt.

Lemma claim_unresolved env b ie w e :
  get_document_type_from_file_name (config_data env) (validation_successful_blob_path b)
  = Raised e →
  set_blob_for_processing_and_update_mongodb env (mkState b ie w)
  = (Raised e,
     mkState
       (Blob.append_lifecycle_status
          (mkLifecycleStatus PROCESSING "Starting blob process" (clock w)) b)
       ie (St.set_clock (S (clock w)) w)).
Proof. intros H. unfold_steps. simpl. by rewrite H. Qed.

Lemma claim_resolved env b ie w ty model :
  get_document_type_from_file_name (config_data env) (validation_successful_blob_path b)
  = Returned (ty, model) →
  validation_successful_blob_path b ∈ input_container w →
  set_blob_for_processing_and_update_mongodb env (mkState b ie w)
  = (Returned tt,
     mkState (claimed env ty model (clock w) b) ie
       (St.persist (claimed env ty model (clock w) b)
          (St.set_input_container
             (moved (validation_successful_blob_path b) (in_progress_path env b)
                (input_container w))
             (St.persist (claiming env ty model (clock w) b)
                (St.set_clock (S (clock w)) w))))).
Proof.
  intros H Hin. unfold_steps. simpl. rewrite H. simpl.
  rewrite bool_decide_eq_true_2 by done. simpl.
  by rewrite bool_decide_eq_true_2 by set_solver.
Qed.

Lemma claim_resolved_absent env b ie w ty model :
  get_document_type_from_file_name (config_data env) (validation_successful_blob_path b)
  = Returned (ty, model) →
  validation_successful_blob_path b ∉ input_container w →
  set_blob_for_processing_and_update_mongodb env (mkState b ie w)
  = (Raised ResourceNotFoundError,
     mkState (claiming env ty model (clock w) b) ie
       (St.persist (claiming env ty model (clock w) b) (St.set_clock (S (clock w)) w))).
Proof.
  intros H Hin. unfold_steps. simpl. rewrite H. simpl.
  by rewrite bool_decide_eq_false_2 by done.
Qed.

Lemma mark_processed_and_move_eq env b ie w :
  mark_processed_and_move env (mkState b ie w)
  = set_processing_status_and_move_completed_blobs env ie
      (mkState (marked (clock w) b) ie
         (St.persist (marked (clock w) b) (St.set_clock (S (clock w)) w))).
Proof. reflexivity. Qed.

Lemma relocation_unassigned env is_error b ie w :
  in_progress_blob_path b = None →
  set_processing_status_and_move_completed_blobs env is_error (mkState b ie w)
  = (Raised AttributeError, mkState b ie w).
Proof. intros H. unfold_steps. simpl. rewrite H. by destruct is_error. Qed.

Lemma relocation_absent env is_error b ie w ip :
  in_progress_blob_path b = Some ip →
  ip ∉ input_container w →
  set_processing_status_and_move_completed_blobs env is_error (mkState b ie w)
  = (Raised ResourceNotFoundError,
     mkState (relocating env is_error ip b) ie
       (St.persist (relocating env is_error ip b) w)).
Proof.
  intros H Hin. unfold_steps. simpl. rewrite H.
  destruct is_error; simpl; by rewrite bool_decide_eq_false_2 by done.
Qed.

Lemma relocation_present env is_error b ie w ip :
  in_progress_blob_path b = Some ip →
  ip ∈ input_container w →
  set_processing_status_and_move_completed_blobs env is_error (mkState b ie w)
  = (Returned tt,
     mkState (relocated env is_error ip (clock w) b) ie
       (St.persist (relocated env is_error ip (clock w) b)
          (St.set_clock (S (clock w))
             (St.set_input_container
                (moved ip (destination env is_error ip) (input_container w))
                (St.persist (relocating env is_error ip b) w))))).
Proof.
  intros H Hin. unfold_steps. simpl. rewrite H.
  destruct is_error; simpl.
  - rewrite bool_decide_eq_true_2 by done. simpl.
    by rewrite bool_decide_eq_true_2 by set_solver.
  - rewrite bool_decide_eq_true_2 by done. simpl.
    by rewrite bool_decide_eq_true_2 by set_solver.
Qed.


Lemma store_result_conflict env result_dict b ie w ip old :
  in_progress_blob_path b = Some ip →
  result_container w !! result_json_path ip = Some old →
  store_result env result_dict (mkState b ie w) = (Returned tt, mkState b ie w).
Proof. intros H Hold. unfold_steps. simpl. rewrite H. simpl. by rewrite Hold. Qed.

Lemma store_result_free env result_dict b ie w ip :
  in_progress_blob_path b = Some ip →
  result_container w !! result_json_path ip = None →
  store_result env result_dict (mkState b ie w)
  = (Returned tt,
     mkState (with_result env ip b) ie
       (St.persist (with_result env ip b)
          (St.set_result_container
             (<[result_json_path ip := mkResultJson (PyStr.basename ip) result_dict]>
                (result_container w)) w))).
Proof. intros H Hnone. unfold_steps. simpl. rewrite H. simpl. by rewrite Hnone. Qed.

(** ** Frames and invariants *)


Ltac flags_side :=
  unfold flags_kept; intros [b ie w]; simpl;
  first
    [ done
    | intros [Hb Hlog]; split; [done |];
      apply Forall_app; split; [done |];
      repeat constructor; done
    | intros [Hb Hlog] _; split; done ].

Lemma claim_keeps_flags env :
  preserves flags_kept (set_blob_for_processing_and_update_mongodb env).
Proof. preserves_steps; flags_side. Qed.

Lemma analyze_blob_keeps_flags env :
  preserves flags_kept (analyze_blob env).
Proof. preserves_steps; flags_side. Qed.

Lemma relocation_keeps_trace env is_error claim old snap :
  preserves (aborted_claim_trace claim old snap)
    (set_processing_status_and_move_completed_blobs env is_error).
Proof.
  preserves_steps; unfold aborted_claim_trace; intros [b ie w]; simpl; try done.
  all: intros (? & ? & rest & ->); repeat split; try done.
  all: eexists; by rewrite <- app_assoc, <- app_comm_cons.
Qed.

Lemma handle_input_blob_disabled_keeps_results env rc :
  preserves (results_are rc) (handle_input_blob env false).
Proof. preserves_steps; unfold results_are; intros [b ie w]; by simpl. Qed.

Lemma except_clauses_eq env e s :
  except_clauses env e s = mark_processed_and_move env s.
Proof.
  unfold except_clauses.
  by destruct (is_MissingConfigException e), (is_CitadelIDPBackendException e).
Qed.

(** Marking and relocating a record whose object is where the record says. *)
Lemma mark_processed_and_move_relocatable env b ie w ip :
  in_progress_blob_path b = Some ip →
  ip ∈ input_container w →
  mark_processed_and_move env (mkState b ie w)
  = (Returned tt,
     mkState (relocated env ie ip (S (clock w)) (marked (clock w) b)) ie
       (St.persist (relocated env ie ip (S (clock w)) (marked (clock w) b))
          (St.set_clock (S (S (clock w)))
             (St.set_input_container (moved ip (destination env ie ip) (input_container w))
                (St.persist (relocating env ie ip (marked (clock w) b))
                   (St.persist (marked (clock w) b) (St.set_clock (S (clock w)) w))))))).
Proof.
  intros Hip Hin. rewrite mark_processed_and_move_eq.
  by rewrite (relocation_present env ie _ _ _ ip).
Qed.

Lemma marked_flags_ok t b : flags_ok b = true → flags_ok (marked t b) = true.
Proof.
  unfold flags_ok, no_outcome. simpl.
  destruct (is_processed_success b), (is_processed_failed b), (is_processed_for_data b); done.
Qed.

Lemma relocating_flags_ok env is_error ip b :
  flags_ok b = true → flags_ok (relocating env is_error ip b) = true.
Proof. by destruct is_error. Qed.

Lemma relocated_marked_flags env is_error ip t t' b :
  is_processed_for_data (relocated env is_error ip t (marked t' b)) = true
  ∧ one_outcome (relocated env is_error ip t (marked t' b)) = true
  ∧ flags_ok (relocated env is_error ip t (marked t' b)) = true.
Proof. by destruct is_error. Qed.

(** From well-formed flags, marking and relocating either completes with
    exactly one outcome on a processed record, or raises and leaves the
    flags well formed. *)
Lemma mark_processed_and_move_flags env s :
  flags_kept s →
  match mark_processed_and_move env s with
  | (Returned _, s') =>
      Forall (λ b, flags_ok b = true) (save_log (world s'))
      ∧ is_processed_for_data (cur s') = true
      ∧ one_outcome (cur s') = true
  | (Raised _, s') => flags_kept s'
  end.
Proof.
  destruct s as [b ie w]. intros [Hb Hlog]. simpl in *.
  rewrite mark_processed_and_move_eq.
  pose proof (marked_flags_ok (clock w) b Hb) as Hm.
  destruct (in_progress_blob_path (marked (clock w) b)) as [ip|] eqn:Hip.
  - pose proof (relocating_flags_ok env ie ip _ Hm) as Hr.
    destruct (decide (ip ∈ input_container w)) as [Hin|Hin].
    + rewrite (relocation_present env ie _ _ _ ip) by done.
      destruct (relocated_marked_flags env ie ip (S (clock w)) (clock w) b) as (Hp & Ho & Hf).
      cbn [fst snd cur world save_log St.persist St.set_clock St.set_input_container].
      split; [| done].
      rewrite !Forall_app. repeat split; try done; by repeat constructor.
    + rewrite (relocation_absent env ie _ _ _ ip) by done.
      split; [done |].
      cbn [fst snd cur world save_log St.persist St.set_clock St.set_input_container].
      rewrite !Forall_app. repeat split; try done; by repeat constructor.
  - rewrite relocation_unassigned by done. split; [done |].
    cbn [fst snd cur world save_log St.persist St.set_clock St.set_input_container].
    rewrite Forall_app. split; [done |]. by repeat constructor.
Qed.

(** ** Isolation of documents in the batch *)

Lemma try_bind_returned {A B} (m : M A) (k : A → M B) (h : exn → M B) s s' a :
  m s = (Returned a, s') →
  Stmt.try_except (m ≫= k) h s = Stmt.try_except (k a) h s'.
Proof. intros H. unfold_stmt. by rewrite H. Qed.

Lemma try_bind_raised {A B} (m : M A) (k : A → M B) (h : exn → M B) s s' e :
  m s = (Raised e, s') →
  Stmt.try_except (m ≫= k) h s = h e s'.
Proof. intros H. unfold_stmt. by rewrite H. Qed.









(** ** A claim whose document type does not resolve *)

(** The resolution fails with [MissingDocumentTypeException] only, and in
    the two cases the function names: no hyphen in the name, or no entry of
    the table for what follows the last hyphen. *)
Lemma resolution_failure_cases cfg file_path e :
  get_document_type_from_file_name cfg file_path = Raised e →
  is_CitadelIDPBackendException e = true
  ∧ let name_part := (PyStr.splitext (PyStr.basename file_path)).1 in
    PyStr.rsplit1 "-" name_part = None
    ∨ ∃ l document_type,
        PyStr.rsplit1 "-" name_part = Some (l, document_type)
        ∧ lookup_document_type (Config.items cfg "Form-Recognizer-Document-Types") document_type
          = None.
Proof.
  unfold get_document_type_from_file_name. intros H.
  destruct (PyStr.rsplit1 "-" _) as [[l ty]|] eqn:E.
  - unfold Config.has_section, Config.items in *.
    destruct (cfg !! "Form-Recognizer-Document-Types") as [kvs|] eqn:Ek; simpl in *.
    + destruct (lookup_document_type kvs ty) eqn:El; [done |].
      injection H as <-. split; [done |]. right. by exists l, ty.
    + injection H as <-. split; [done |]. right. by exists l, ty.
  - injection H as <-. split; [done | by left].
Qed.

(** C3, as the specification states it, fails: for a name without a hyphen
    the record store receives a snapshot that is marked processed and
    carries two new lifecycle entries. *)
Lemma unresolved_type_mutates_record :
  let env := Sample.spec_env (Sample.config "prod" (Some "true")) Sample.service_ok in
  let r := handle_input_blob_process env (Sample.world_of [Sample.no_hyphen_1003]) in
  (raises (get_document_type_from_file_name (config_data env) Sample.no_hyphen_1003))
  ∧ (λ x, (is_processed_for_data x, statuses x)) <$> save_log r.2
    = [(true, [PROCESSING; PROCESSED])]
  ∧ (λ x, (is_processed_for_data x, statuses x)) <$> mongodb r.2
    = [(true, [PROCESSING; PROCESSED])].
Proof. intros env r. split; [| split]; by vm_compute. Qed.

(** C3, amended: when the document type does not resolve, the claim raises
    before it relocates or persists anything and before it sets the claim
    flag; but it has already appended a [PROCESSING] entry to the record,
    and the batch loop catches the exception, marks the record processed,
    appends a [PROCESSED] entry and persists it.  The claim flag keeps its
    value throughout. *)
Theorem unresolved_type_aborts_claim_only env use_fr b ie w e :
  get_document_type_from_file_name (config_data env) (validation_successful_blob_path b)
  = Raised e →
  let started :=
    Blob.append_lifecycle_status
      (mkLifecycleStatus PROCESSING "Starting blob process" (clock w)) b in
  let c := set_blob_for_processing_and_update_mongodb env (mkState b ie w) in
  let r := handle_input_blob env use_fr (mkState b ie w) in
  (c.1 = Raised e
   ∧ cur c.2 = started
   ∧ input_container (world c.2) = input_container w
   ∧ result_container (world c.2) = result_container w
   ∧ mongodb (world c.2) = mongodb w
   ∧ save_log (world c.2) = save_log w)
  ∧ is_processing_for_data (cur r.2) = is_processing_for_data b
  ∧ is_processed_for_data (cur r.2) = true
  ∧ ∃ rest, save_log (world r.2) = save_log w ++ marked (S (clock w)) started :: rest.
Proof.
  intros H started c r. subst c r.
  rewrite (claim_unresolved env b ie w e H). split; [done |].
  unfold handle_input_blob, process_blob.
  erewrite try_bind_raised by by apply claim_unresolved.
  rewrite except_clauses_eq, mark_processed_and_move_eq.
  apply (relocation_keeps_trace env ie (is_processing_for_data b) (save_log w)
           (marked (S (clock w)) started)).
  repeat split; simpl; [done.. |]. by exists [].
Qed.

Lemma unresolved_type_aborts_claim_only_witness :
  ∃ rest,
    save_log
      (world
         (handle_input_blob
            (Sample.spec_env (Sample.config "prod" (Some "true")) Sample.service_ok) true
            (mkState (Sample.validated Sample.no_hyphen_1003) true
               (Sample.world_of [Sample.no_hyphen_1003]))).2)
    = marked 1
        (Blob.append_lifecycle_status
           (mkLifecycleStatus PROCESSING "Starting blob process" 0)
           (Sample.validated Sample.no_hyphen_1003)) :: rest.
Proof.
  eapply (unresolved_type_aborts_claim_only
            (Sample.spec_env (Sample.config "prod" (Some "true")) Sample.service_ok) true
            (Sample.validated Sample.no_hyphen_1003) true
            (Sample.world_of [Sample.no_hyphen_1003])).
  reflexivity.
Defined.

(** ** The outcome flags *)

(** One iteration, from a record with well-formed flags. *)
Lemma handle_input_blob_flags env (use_fr : bool) s :
  flags_kept s →
  match handle_input_blob env use_fr s with
  | (Returned _, s') =>
      Forall (λ b, flags_ok b = true) (save_log (world s'))
      ∧ is_processed_for_data (cur s') = true
      ∧ one_outcome (cur s') = true
  | (Raised _, s') => flags_kept s'
  end.
Proof.
  intros Hs. unfold handle_input_blob, process_blob.
  pose proof (claim_keeps_flags env s Hs) as H1.
  destruct (set_blob_for_processing_and_update_mongodb env s) as [[[]|e] s1] eqn:E1;
    simpl in H1.
  - erewrite try_bind_returned by done.
    assert (∃ o s2, (if use_fr then analyze_blob env;; Stmt.assign_is_error false
                     else Stmt.ret tt : M unit) s1 = (o, s2) ∧ flags_kept s2)
      as (o & s2 & E2 & H2).
    { destruct use_fr; [| by eexists _, _].
      pose proof (analyze_blob_keeps_flags env s1 H1) as Ha.
      destruct (analyze_blob env s1) as [[[]|e] s2] eqn:Ea; simpl in Ha.
      - eexists _, _. split; [by erewrite bind_returned |]. by destruct s2.
      - eexists _, _. split; [by erewrite bind_raised |]. done. }
    destruct o as [[]|e].
    + pose proof (mark_processed_and_move_flags env s2 H2) as H3.
      destruct (mark_processed_and_move env s2) as [[[]|e] s3] eqn:E3.
      * erewrite try_bind_returned by done. by erewrite try_returned.
      * erewrite try_bind_returned by done. erewrite try_raised by done.
        rewrite except_clauses_eq. by apply mark_processed_and_move_flags.
    + erewrite try_bind_raised by done.
      rewrite except_clauses_eq. by apply mark_processed_and_move_flags.
  - erewrite try_bind_raised by done.
    rewrite except_clauses_eq. by apply mark_processed_and_move_flags.
Qed.

(** C4, as the specification states it, fails: the snapshots the record
    store receives while the relocation is under way are marked processed
    and have neither outcome flag set. *)
Lemma processed_snapshot_without_outcome :
  let env := Sample.spec_env (Sample.config "prod" (Some "true")) Sample.service_ok in
  let r := handle_input_blob_process env (Sample.world_of [Sample.receipt_1001]) in
  (λ x, (is_processed_for_data x, is_processed_success x, is_processed_failed x))
    <$> save_log r.2
  = [(false, false, false); (false, false, false); (false, false, false);
     (true, false, false); (true, false, false); (true, true, false)].
Proof. by vm_compute. Qed.

(** C4, amended: the well-formedness of the flags -- at most one of the two
    outcome flags set, and none unless the record is marked processed -- is
    kept by the batch: when the records that enter it and the snapshots the
    record store holds have well-formed flags, so has every snapshot the
    record store receives during the claim and finalize transitions,
    whether the batch returns or raises; and every record of a batch that
    returns is marked processed with exactly one of the two flags set. *)
Theorem outcome_flags_invariant env (use_fr : bool) docs ie w :
  Forall (λ b, flags_ok b = true) docs →
  Forall (λ b, flags_ok b = true) (save_log w) →
  let r := for_each_input_blob env use_fr docs ie w in
  Forall (λ b, flags_ok b = true) (save_log r.2)
  ∧ ∀ outs, r.1 = Returned outs →
            Forall (λ b, is_processed_for_data b = true ∧ one_outcome b = true
                         ∧ flags_ok b = true) outs.
Proof.
  revert ie w. induction docs as [|d docs IH]; intros ie w Hdocs Hlog; simpl.
  - split; [done |]. intros outs [= <-]. constructor.
  - apply Forall_cons in Hdocs as [Hd Hdocs].
    pose proof (handle_input_blob_flags env use_fr (mkState d ie w) (conj Hd Hlog)) as H.
    destruct (handle_input_blob env use_fr (mkState d ie w)) as [[[]|e] s]; simpl.
    + destruct H as (Hlog' & Hp & Ho).
      specialize (IH (loop_is_error s) (world s) Hdocs Hlog'). simpl in IH.
      destruct (for_each_input_blob env use_fr docs _ _) as [[outs|e] w1]; simpl in *.
      * destruct IH as [IH1 IH2]. split; [done |].
        intros ? [= <-]. constructor; [| by apply IH2].
        repeat split; try done. unfold flags_ok, one_outcome in *.
        rewrite Hp. destruct (is_processed_success (cur s)), (is_processed_failed (cur s)); done.
      * by destruct IH as [IH1 _].
    + by destruct H as [_ H].
Qed.

Lemma outcome_flags_invariant_witness :
  let env := Sample.spec_env (Sample.config "prod" (Some "true")) Sample.service_fails_on_1002 in
  let docs := [Blob.set_is_processed_failed true
                 (Blob.set_is_processed_for_data true (Sample.validated Sample.receipt_1001));
               Sample.validated Sample.receipt_1002] in
  Forall (λ b, flags_ok b = true)
    (save_log
       (for_each_input_blob env true docs true
          (Sample.world_of [Sample.receipt_1001; Sample.receipt_1002])).2).
Proof.
  intros env docs.
  apply (outcome_flags_invariant env true docs true
           (Sample.world_of [Sample.receipt_1001; Sample.receipt_1002])).
  - repeat constructor.
  - constructor.
Defined.

(** ** Analysis disabled by configuration *)

Lemma analyze_blob_keeps_claimed_with env ip ie entries :
  preserves (claimed_with ip ie entries) (analyze_blob env).
Proof.
  preserves_steps; unfold claimed_with, relocatable; intros [b i w]; simpl; try done.
Qed.

(** The two ways the configuration disables the analysis. *)
Lemma analysis_disabled_configurations env :
  (Config.has_option (config_data env) "Main" "use-azure-form-recognizer" = false →
   handler_use_azure_form_recognizer env = Returned true
   ∧ analysis_use_azure_form_recognizer env = Returned false)
  ∧ (Config.has_option (config_data env) "Main" "use-azure-form-recognizer" = true →
     Config.getboolean (config_data env) "Main" "use-azure-form-recognizer" = Returned false →
     handler_use_azure_form_recognizer env = Returned false
     ∧ analysis_use_azure_form_recognizer env = Returned false).
Proof.
  unfold handler_use_azure_form_recognizer, analysis_use_azure_form_recognizer.
  split.
  - intros ->. split; [done |]. by destruct (String.eqb _ "prod").
  - intros -> ->. split; [done |]. by destruct (String.eqb _ "prod").
Qed.







(** ** The result artifact *)

(** C8, as the specification states it, fails: the result path is taken,
    the upload raises [ResourceExistsError], [analyze_blob] still returns,
    the batch returns, and the document is finalized as a success without a
    result location; the artifact that was there is untouched. *)
Lemma upload_conflict_is_swallowed :
  let env := Sample.spec_env (Sample.config "prod" (Some "true")) Sample.service_ok in
  let r := handle_input_blob_process env Sample.world_with_artifact in
  let c := set_blob_for_processing_and_update_mongodb env
             (mkState (Sample.validated Sample.receipt_1001) true Sample.world_with_artifact) in
  (upload_blob "Company/acme/1001-receipt.json"
     (mkResultJson "1001-receipt.jpg" (JsonResultList "{}")) c.2).1
  = Raised ResourceExistsError
  ∧ (analyze_blob env c.2).1 = Returned tt
  ∧ (∃ b, r.1 = Returned [b]
          ∧ is_processed_success b = true
          ∧ is_processed_failed b = false
          ∧ json_output b = None
          ∧ statuses b = [PROCESSING; PROCESSED; SUCCESS])
  ∧ result_container r.2 !! "Company/acme/1001-receipt.json" = Some Sample.old_artifact.
Proof.
  intros env r c. split; [| split; [| split]]; [by vm_compute.. | | by vm_compute].
  eexists. split; [by vm_compute |]. by vm_compute.
Qed.

(** C8, amended: no step of an iteration changes an artifact the result
    container already holds.  When the result path is taken, the upload
    raises, the bare [except] of [analyze_blob] catches it, and the function
    returns with the record and the stores unchanged: the conflict is not
    surfaced to the caller and does not affect the outcome of the document.
    When the path is free the artifact is written there and its location
    recorded and persisted. *)
Theorem result_artifact_never_overwritten env :
  (∀ use_fr k v s,
      holds_artifact k v s → holds_artifact k v (handle_input_blob env use_fr s).2)
  ∧ (∀ result_dict b ie w ip old,
        in_progress_blob_path b = Some ip →
        result_container w !! result_json_path ip = Some old →
        store_result env result_dict (mkState b ie w) = (Returned tt, mkState b ie w))
  ∧ (∀ s result_dict b ie w ip old,
        recognizer_result env s = (Returned result_dict, mkState b ie w) →
        in_progress_blob_path b = Some ip →
        result_container w !! result_json_path ip = Some old →
        analyze_blob env s = (Returned tt, mkState b ie w))
  ∧ (∀ result_dict b ie w ip,
        in_progress_blob_path b = Some ip →
        result_container w !! result_json_path ip = None →
        store_result env result_dict (mkState b ie w)
        = (Returned tt,
           mkState (with_result env ip b) ie
             (St.persist (with_result env ip b)
                (St.set_result_container
                   (<[result_json_path ip := mkResultJson (PyStr.basename ip) result_dict]>
                      (result_container w)) w)))).
Proof.
  split; [| split; [| split]].
  - intros use_fr k v. apply handle_input_blob_keeps_artifacts.
  - intros. by eapply store_result_conflict.
  - intros s rd b ie w ip old Hr Hip Hold. unfold analyze_blob.
    erewrite bind_returned by done. by eapply store_result_conflict.
  - intros. by apply store_result_free.
Qed.

Lemma result_artifact_never_overwritten_witness :
  store_result
    (Sample.spec_env (Sample.config "prod" (Some "true")) Sample.service_ok)
    (JsonResultList "{}")
    (mkState
       (Blob.set_in_progress_blob_path (Some "Company/acme/Inprogress/1001-receipt.jpg")
          (Sample.validated Sample.receipt_1001))
       true Sample.world_with_artifact)
  = (Returned tt,
     mkState
       (Blob.set_in_progress_blob_path (Some "Company/acme/Inprogress/1001-receipt.jpg")
          (Sample.validated Sample.receipt_1001))
       true Sample.world_with_artifact).
Proof.
  eapply (result_artifact_never_overwritten
            (Sample.spec_env (Sample.config "prod" (Some "true")) Sample.service_ok)).
  - reflexivity.
  - by vm_compute.
Defined.

(** ** The stale [is_error] *)

(** C1 on the code: in a batch of two, the analysis of the first document
    succeeds and resets [is_error]; the analysis of the second raises a
    network error, the [except Exception] clause relocates with the value
    [is_error] was left with, and the document ends in [Successful] with
    [is_processed_success] set. *)
Theorem second_failure_goes_to_successful :
  let env := Sample.spec_env (Sample.config "prod" (Some "true")) Sample.service_fails_on_1002 in
  let w := Sample.world_of [Sample.receipt_1001; Sample.receipt_1002] in
  let s1 := (handle_input_blob env true (mkState (Sample.validated Sample.receipt_1001) true w)).2 in
  let c2 := (set_blob_for_processing_and_update_mongodb env
               (mkState (Sample.validated Sample.receipt_1002) (loop_is_error s1) (world s1))).2 in
  let r := handle_input_blob_process env w in
  (analyze_blob env c2).1 = Raised (ServiceError "connection reset")
  ∧ loop_is_error s1 = false
  ∧ (∃ b1 b2, r.1 = Returned [b1; b2]
              ∧ is_processed_for_data b2 = true
              ∧ is_processed_success b2 = true
              ∧ is_processed_failed b2 = false
              ∧ success_blob_path b2 = Some "Company/acme/Successful/1002-receipt.jpg"
              ∧ failed_blob_path b2 = None
              ∧ statuses b2 = [PROCESSING; PROCESSED; SUCCESS])
  ∧ elements (input_container r.2)
    = ["Company/acme/Successful/1001-receipt.jpg"; "Company/acme/Successful/1002-receipt.jpg"].
Proof.
  intros env w s1 c2 r. split; [| split; [| split]]; [by vm_compute.. | | by vm_compute].
  eexists _, _. split; [by vm_compute |]. by vm_compute.
Qed.

(** Without an earlier success, [is_error] still holds its initial [True]
    and the same failure is relocated to [Failed]. *)
Lemma first_failure_goes_to_failed env b w ty model e s2 :
  get_document_type_from_file_name (config_data env) (validation_successful_blob_path b)
  = Returned (ty, model) →
  validation_successful_blob_path b ∈ input_container w →
  in_progress_path env b ≠ validation_successful_blob_path b →
  analyze_blob env
    (mkState (claimed env ty model (clock w) b) true
       (St.persist (claimed env ty model (clock w) b)
          (St.set_input_container
             (moved (validation_successful_blob_path b) (in_progress_path env b)
                (input_container w))
             (St.persist (claiming env ty model (clock w) b)
                (St.set_clock (S (clock w)) w)))))
  = (Raised e, s2) →
  ∃ s', handle_input_blob env true (mkState b true w) = (Returned tt, s')
        ∧ is_processed_for_data (cur s') = true
        ∧ is_processed_success (cur s') = false
        ∧ is_processed_failed (cur s') = true
        ∧ failed_blob_path (cur s') = Some (destination env true (in_progress_path env b))
        ∧ statuses (cur s') = statuses b ++ [PROCESSING; PROCESSED; FAILED].
Proof.
  intros Hty Hin Hne Hraise.
  unfold handle_input_blob, process_blob.
  erewrite try_bind_returned by by apply claim_resolved.
  erewrite try_bind_raised by by erewrite bind_raised.
  rewrite except_clauses_eq.
  match type of Hraise with
  | analyze_blob _ ?s = _ =>
      assert (Hpre : claimed_with (in_progress_path env b) true
                       (lifecycle_status_list (claimed env ty model (clock w) b)) s)
  end.
  { repeat split. simpl. unfold moved. set_solver. }
  apply (analyze_blob_keeps_claimed_with env) in Hpre as Hk.
  rewrite Hraise in Hk. destruct s2 as [b2 ie2 w2].
  destruct Hk as ([Hip Hcont] & Hie & Hl). simpl in Hip, Hcont, Hie, Hl. subst ie2.
  erewrite mark_processed_and_move_relocatable by done.
  eexists. split; [done |]. simpl. repeat split.
  unfold statuses. simpl. rewrite !fmap_app, Hl, fmap_app. simpl.
  by rewrite <- !app_assoc.
Qed.

(** ** Empty discovery *)

(** C9, as the specification states it, fails: the batch the service runs
    queries the record store, and with no record to process it returns an
    empty list; nothing is raised. *)
Lemma empty_record_query_returns :
  let env := Sample.spec_env (Sample.config "prod" (Some "true")) Sample.service_ok in
  handle_input_blob_process env (Sample.world_of []) = (Returned [], Sample.world_of [])
  ∧ ¬ raises (handle_input_blob_process env (Sample.world_of [])).1.
Proof. split; [by vm_compute | by intros []]. Qed.

(** C9, amended: when the record query finds no document to process, the
    batch raises nothing on that account.  Provided the storage client can
    be built from the connection string and the toggle can be read, it
    returns the empty list before any per-document processing: the empty
    discovery is the empty batch that returns.  If it raises, building the
    storage client or reading the toggle has raised, and the batch raises
    the same whatever the stores hold, with or without documents to
    process.  Either way the stores are left as they were. *)
Theorem empty_discovery env w :
  objects_to_process w = [] →
  (handle_input_blob_process env w).2 = w
  ∧ (∀ use_fr, get_azure_storage_blob_service_client env = Returned tt →
               handler_use_azure_form_recognizer env = Returned use_fr →
               handle_input_blob_process env w = (Returned [], w))
  ∧ (∀ e, (handle_input_blob_process env w).1 = Raised e →
          (get_azure_storage_blob_service_client env = Raised e
           ∨ handler_use_azure_form_recognizer env = Raised e)
          ∧ ∀ w', handle_input_blob_process env w' = (Raised e, w')).
Proof.
  intros Hobj. unfold handle_input_blob_process. rewrite Hobj.
  destruct (get_azure_storage_blob_service_client env) as [[]|e1].
  - destruct (handler_use_azure_form_recognizer env) as [u|e2]; simpl.
    + split; [done |]. split; [done |]. by intros e [=].
    + split; [done |]. split; [by intros ? _ [=] |].
      intros e [= <-]. split; [by right | done].
  - simpl. split; [done |]. split; [by intros ? [=] |].
    intros e [= <-]. split; [by left | done].
Qed.

Lemma empty_discovery_witness :
  let w := mkWorld {[Sample.receipt_1001]} ∅
             [Blob.set_is_processing_for_data true (Sample.validated Sample.receipt_1001)] [] 0 in
  handle_input_blob_process
    (Sample.spec_env (Sample.config "prod" (Some "true")) Sample.service_ok) w
  = (Returned [], w).
Proof.
  intros w.
  destruct (empty_discovery
              (Sample.spec_env (Sample.config "prod" (Some "true")) Sample.service_ok) w)
    as (_ & H & _).
  - reflexivity.
  - apply (H true); reflexivity.
Defined.

(** * Further properties of the code *)

(** ** The environment tests of [common/utils.py] *)

(** X1: [is_env_prod] compares with ["local"]: it is true exactly when the
    [env] option is present and reads ["local"] in any case, it agrees with
    [is_env_local] whenever the option is present, and it is false for an
    environment that reads ["prod"]; without the option [is_env_local] is
    true and [is_env_prod] false. *)
Theorem is_env_prod_tests_local (cfg : ConfigParser) :
  (is_env_prod cfg = true
   ↔ Config.has_option cfg "Main" "env" = true
     ∧ PyStr.lower (Config.get cfg "Main" "env") = "local")
  ∧ (Config.has_option cfg "Main" "env" = true → is_env_prod cfg = is_env_local cfg)
  ∧ (Config.has_option cfg "Main" "env" = false →
     is_env_local cfg = true ∧ is_env_prod cfg = false)
  ∧ (PyStr.lower (Config.get cfg "Main" "env") = "prod" → is_env_prod cfg = false).
Proof.
  unfold is_env_prod, is_env_local. change (PyStr.lower "local") with "local".
  destruct (Config.has_option cfg "Main" "env"); cbv zeta.
  - split; [| split; [| split]]; try done.
    + rewrite String.eqb_eq. split; [done | by intros [_ ?]].
    + by intros ->.
  - split; [| split; [| split]]; try done.
    split; [done | by intros [? _]].
Qed.

Lemma is_env_prod_tests_local_witness :
  is_env_prod (Sample.config "prod" None) = false
  ∧ is_env_prod (Sample.config "Local" None) = is_env_local (Sample.config "Local" None).
Proof.
  destruct (is_env_prod_tests_local (Sample.config "prod" None)) as (_ & _ & _ & H).
  destruct (is_env_prod_tests_local (Sample.config "Local" None)) as (_ & H' & _).
  split; [by apply H | by apply H'].
Defined.

(** ** Connection strings *)

Lemma lstrip_first (p : ascii → bool) (s : string) :
  PyStr.first_char_in p (PyStr.lstrip p s) = false.
Proof.
  induction s as [|c s IH]; [done |]. simpl.
  destruct (p c) eqn:E; [done |]. simpl. by rewrite E.
Qed.

Lemma rstrip_last (p : ascii → bool) (s : string) :
  PyStr.last_char_in p (PyStr.rstrip p s) = false.
Proof.
  induction s as [|c s IH]; [done |]. simpl.
  destruct (PyStr.rstrip p s) as [|d t] eqn:E.
  - destruct (p c) eqn:Ec; [done |]. simpl. by rewrite Ec.
  - done.
Qed.

Lemma rstrip_first (p : ascii → bool) (s : string) :
  PyStr.first_char_in p s = false → PyStr.first_char_in p (PyStr.rstrip p s) = false.
Proof.
  destruct s as [|c s]; [done |]. simpl. intros Hc.
  destruct (PyStr.rstrip p s); [by rewrite Hc | done].
Qed.

Lemma strip_ends (p : ascii → bool) (s : string) :
  PyStr.first_char_in p (PyStr.strip p s) = false
  ∧ PyStr.last_char_in p (PyStr.strip p s) = false.
Proof.
  unfold PyStr.strip. split; [apply rstrip_first, lstrip_first | apply rstrip_last].
Qed.

(** X2: the storage and the database connection strings are read alike: a
    missing option or an empty value raises [MissingConfigException]; a
    value quoted at both ends is returned with every quote stripped from
    its ends, so that the result neither starts nor ends with a quote; any
    other value is returned as it is. *)
Theorem connection_strings_normalized (cfg : ConfigParser) :
  let reads (opt : string) (f : outcome string) : Prop :=
    match Config.option_value cfg "Main" opt with
    | None | Some EmptyString => ∃ msg, f = Raised (MissingConfigException msg)
    | Some v =>
        if PyStr.first_char_in PyStr.is_quote v && PyStr.last_char_in PyStr.is_quote v
        then f = Returned (PyStr.strip PyStr.is_quote v)
             ∧ PyStr.first_char_in PyStr.is_quote (PyStr.strip PyStr.is_quote v) = false
             ∧ PyStr.last_char_in PyStr.is_quote (PyStr.strip PyStr.is_quote v) = false
        else f = Returned v
    end in
  reads "azure-storage-account-connection-str" (get_blob_storage_connection_string cfg)
  ∧ reads "mongodb_connection_string" (configure_database cfg).
Proof.
  intros reads. subst reads.
  unfold get_blob_storage_connection_string, configure_database, Config.has_option, Config.get.
  split.
  - destruct (Config.option_value cfg "Main" "azure-storage-account-connection-str")
      as [[|c v]|]; simpl; [by eexists | | by eexists].
    destruct (PyStr.is_quote c && _); [| done].
    split; [done | apply strip_ends].
  - destruct (Config.option_value cfg "Main" "mongodb_connection_string")
      as [[|c v]|]; simpl; [by eexists | | by eexists].
    destruct (PyStr.is_quote c && _); [| done].
    split; [done | apply strip_ends].
Qed.

(** ** Resolution of the document type *)

Lemma rsplit1_Some (c : ascii) (s l r : string) :
  PyStr.rsplit1 c s = Some (l, r) →
  s = l +:+ String c r ∧ PyStr.rsplit1 c r = None.
Proof.
  revert l. induction s as [|a s IH]; intros l H; [done |].
  simpl in H. destruct (PyStr.rsplit1 c s) as [[l' r']|] eqn:E.
  - injection H as <- <-. destruct (IH l' eq_refl) as [-> Hr].
    by rewrite append_cons.
  - destruct (Ascii.eqb a c) eqn:Ea; [| done].
    apply Ascii.eqb_eq in Ea as ->. by injection H as <- <-.
Qed.

Lemma rsplit1_append (c : ascii) (l r : string) :
  PyStr.rsplit1 c r = None →
  PyStr.rsplit1 c (l +:+ String c r) = Some (l, r).
Proof.
  intros Hr. induction l as [|a l IH].
  - rewrite append_nil. simpl. by rewrite Hr, Ascii.eqb_refl.
  - rewrite append_cons. simpl. by rewrite IH.
Qed.

Lemma rsplit1_None (c : ascii) (s : string) :
  PyStr.rsplit1 c s = None ↔ PyStr.contains s (String c EmptyString) = false.
Proof.
  induction s as [|a s IH]; [done |].
  rewrite contains_cons. simpl.
  destruct (PyStr.rsplit1 c s) as [[l r]|].
  - split; [done |]. intros H. apply orb_false_elim in H as [_ H].
    by apply IH in H.
  - destruct IH as [IH _]. rewrite (IH eq_refl), orb_false_r.
    rewrite (Ascii.eqb_sym a c), startswith_empty.
    by destruct (Ascii.eqb c a).
Qed.

Lemma basename_basename (p : string) :
  PyStr.basename (PyStr.basename p) = PyStr.basename p.
Proof.
  unfold PyStr.basename at 2 3.
  destruct (PyStr.rsplit1 "/" p) as [[l r]|] eqn:E; [| unfold PyStr.basename; by rewrite E].
  apply rsplit1_Some in E as [_ Hr]. unfold PyStr.basename. by rewrite Hr.
Qed.

Lemma lookup_document_type_Some (kvs : list (string * string)) (ty model : string) :
  lookup_document_type kvs ty = Some model
  ↔ ∃ pre key post,
      kvs = pre ++ (key, model) :: post
      ∧ Forall (λ kv, PyStr.lower ty ≠ PyStr.lower kv.1) pre
      ∧ PyStr.lower ty = PyStr.lower key.
Proof.
  induction kvs as [|[k v] kvs IH]; simpl.
  - split; [done |]. intros (pre & key & post & H & _). by destruct pre.
  - destruct (String.eqb (PyStr.lower ty) (PyStr.lower k)) eqn:E.
    + apply String.eqb_eq in E. split.
      * intros [= ->]. by exists [], k, kvs.
      * intros (pre & key & post & H & Hpre & Hkey).
        destruct pre as [|[k' v'] pre]; simpl in H.
        -- by injection H as _ -> _.
        -- injection H as -> -> _. apply Forall_cons in Hpre as [Hne _]. done.
    + apply String.eqb_neq in E. rewrite IH. split.
      * intros (pre & key & post & -> & Hpre & Hkey).
        exists ((k, v) :: pre), key, post. split; [done | split; [by constructor | done]].
      * intros (pre & key & post & H & Hpre & Hkey).
        destruct pre as [|[k' v'] pre]; simpl in H.
        -- injection H as -> _ _. done.
        -- injection H as _ _ ->. apply Forall_cons in Hpre as [_ Hpre].
           by exists pre, key, post.
Qed.

(** X3: the resolution returns [(document_type, model)] exactly when the
    name without directory and extension ends with a hyphen followed by
    [document_type], [document_type] holds no hyphen, and [model] is the
    value of the first entry of the document-type table whose key equals
    [document_type] up to case; the document type is returned in the case
    the file name has it in. *)
Theorem resolution_returns_iff (cfg : ConfigParser) (file_path ty model : string) :
  get_document_type_from_file_name cfg file_path = Returned (ty, model)
  ↔ ∃ l pre key post,
      (PyStr.splitext (PyStr.basename file_path)).1 = l +:+ String "-" ty
      ∧ PyStr.contains ty "-" = false
      ∧ Config.items cfg "Form-Recognizer-Document-Types" = pre ++ (key, model) :: post
      ∧ Forall (λ kv, PyStr.lower ty ≠ PyStr.lower kv.1) pre
      ∧ PyStr.lower ty = PyStr.lower key.
Proof.
  unfold get_document_type_from_file_name, Config.has_section, Config.items.
  set (name_part := (PyStr.splitext (PyStr.basename file_path)).1).
  split.
  - destruct (PyStr.rsplit1 "-" name_part) as [[l t]|] eqn:E; [| done].
    apply rsplit1_Some in E as [Hname Ht]. apply rsplit1_None in Ht.
    destruct (cfg !! "Form-Recognizer-Document-Types") as [kvs|]; simpl; [| done].
    destruct (lookup_document_type kvs t) as [v|] eqn:El; [| done].
    intros [= -> ->]. apply lookup_document_type_Some in El as (pre & key & post & ?).
    by exists l, pre, key, post.
  - intros (l & pre & key & post & Hname & Hty & Hitems & Hpre & Hkey).
    rewrite Hname, rsplit1_append by by apply rsplit1_None.
    destruct (cfg !! "Form-Recognizer-Document-Types") as [kvs|]; simpl in *;
      [| by destruct pre].
    assert (lookup_document_type kvs ty = Some model) as ->; [| done].
    apply lookup_document_type_Some. by exists pre, key, post.
Qed.

(** X4: the resolution looks at the file name only: a path and its base
    name resolve to the same document type and model, or both fail. *)
Theorem resolution_ignores_directory (cfg : ConfigParser) (file_path : string)
    (r : string * string) :
  get_document_type_from_file_name cfg file_path = Returned r
  ↔ get_document_type_from_file_name cfg (PyStr.basename file_path) = Returned r.
Proof.
  unfold get_document_type_from_file_name. rewrite basename_basename.
  destruct (PyStr.rsplit1 "-" _) as [[l t]|]; [| done].
  by destruct (if Config.has_section cfg _ then _ else _).
Qed.

(** ** The analysis step *)

Lemma string_is_not_empty_nonempty (s : string) :
  s ≠ EmptyString → string_is_not_empty (PyString s) = Returned true.
Proof. by destruct s. Qed.

Lemma get_sas_url_nonempty env (blob_path : string) :
  get_sas_url env blob_path ≠ EmptyString.
Proof. unfold get_sas_url. by rewrite append_cons. Qed.

(** Reading the configuration and calling the service changes neither the
    record nor the stores. *)
Lemma recognizer_result_read_only env s : (recognizer_result env s).2 = s.
Proof.
  unfold recognizer_result, recognize. unfold_stmt.
  destruct (analysis_use_azure_form_recognizer env) as [[|]|]; simpl; [| done..].
  repeat (case_match; simpl; try done).
Qed.

Lemma store_result_unassigned env result_dict s :
  in_progress_blob_path (cur s) = None →
  store_result env result_dict s = (Raised TypeError, s).
Proof. intros H. unfold_steps. simpl. by rewrite H. Qed.

Lemma store_result_returns env result_dict b ie w ip :
  in_progress_blob_path b = Some ip →
  ∃ b' w',
    store_result env result_dict (mkState b ie w) = (Returned tt, mkState b' ie w')
    ∧ ((∃ old, result_container w !! result_json_path ip = Some old ∧ b' = b ∧ w' = w)
       ∨ (result_container w !! result_json_path ip = None
          ∧ b' = with_result env ip b
          ∧ w' = St.persist (with_result env ip b)
                   (St.set_result_container
                      (<[result_json_path ip := mkResultJson (PyStr.basename ip) result_dict]>
                         (result_container w)) w))).
Proof.
  intros Hip. destruct (result_container w !! result_json_path ip) as [old|] eqn:E.
  - erewrite store_result_conflict by done. eexists _, _. split; [done |]. left. by exists old.
  - erewrite store_result_free by done. eexists _, _. split; [done |]. by right.
Qed.

(** X5: when [analyze_blob] raises, the record and the stores are exactly
    as they were before the call, and the exception comes from before the
    upload: from reading the configuration and calling the service, or from
    a record that has no in-progress path.  What the upload raises never
    leaves [analyze_blob]. *)
Theorem analyze_blob_failure_changes_nothing env s e s' :
  analyze_blob env s = (Raised e, s') →
  s' = s
  ∧ (recognizer_result env s = (Raised e, s)
     ∨ (in_progress_blob_path (cur s) = None ∧ e = TypeError)).
Proof.
  unfold analyze_blob. intros H.
  pose proof (recognizer_result_read_only env s) as Hro.
  destruct (recognizer_result env s) as [[rd|e0] s0] eqn:Er; simpl in Hro; subst s0.
  - erewrite bind_returned in H by done.
    destruct (in_progress_blob_path (cur s)) as [ip|] eqn:Hip.
    + destruct s as [b ie w]. simpl in Hip.
      destruct (store_result_returns env rd b ie w ip Hip) as (b' & w' & Hs & _).
      congruence.
    + rewrite store_result_unassigned in H by done. injection H as <- <-. auto.
  - erewrite bind_raised in H by done. injection H as <- <-. auto.
Qed.

Lemma analyze_blob_failure_changes_nothing_witness :
  let env := Sample.spec_env (Sample.config "prod" (Some "true")) Sample.service_down in
  let s := mkState (claimed env "receipt" "model-A" 0 (Sample.validated Sample.receipt_1001))
             true (Sample.world_of [Sample.receipt_1001]) in
  s = s
  ∧ (recognizer_result env s = (Raised (ServiceError "connection reset"), s)
     ∨ (in_progress_blob_path (cur s) = None ∧ ServiceError "connection reset" = TypeError)).
Proof.
  intros env s.
  apply (analyze_blob_failure_changes_nothing env s (ServiceError "connection reset") s).
  reflexivity.
Defined.

(** X6: with the analysis enabled, a form-recognizer key or endpoint that
    is missing or empty makes [analyze_blob] raise
    [MissingConfigException]; the record and the stores are left as they
    were. *)
Theorem analyze_blob_missing_credentials env s :
  analysis_use_azure_form_recognizer env = Returned true →
  Config.option_value (config_data env) "Main" "form-recognizer-key" = None
  ∨ Config.option_value (config_data env) "Main" "form-recognizer-key" = Some EmptyString
  ∨ Config.option_value (config_data env) "Main" "form-recognizer-endpoint" = None
  ∨ Config.option_value (config_data env) "Main" "form-recognizer-endpoint" = Some EmptyString →
  ∃ msg, analyze_blob env s = (Raised (MissingConfigException msg), s).
Proof.
  intros Hon Hbad.
  unfold analyze_blob, recognizer_result, recognize, Config.has_option, Config.get.
  unfold_stmt. rewrite Hon.
  destruct (Config.option_value (config_data env) "Main" "form-recognizer-key")
    as [[|c k]|]; simpl; [by eexists | | by eexists].
  destruct (Config.option_value (config_data env) "Main" "form-recognizer-endpoint")
    as [[|c' ep]|]; simpl; [by eexists | | by eexists].
  by destruct Hbad as [? | [? | [? | ?]]].
Qed.

Lemma analyze_blob_missing_credentials_witness :
  ∃ msg,
    analyze_blob
      (Sample.spec_env
         (<["Main" := [("env", "prod"); ("use-azure-form-recognizer", "true")]]> ∅)
         Sample.service_ok)
      (mkState (Sample.validated Sample.receipt_1001) true (Sample.world_of [Sample.receipt_1001]))
    = (Raised (MissingConfigException msg),
       mkState (Sample.validated Sample.receipt_1001) true (Sample.world_of [Sample.receipt_1001])).
Proof.
  apply analyze_blob_missing_credentials; [reflexivity | by left].
Defined.

(** With the analysis enabled and configured, the service is called with
    the model and the URL of the record. *)
Lemma recognizer_result_enabled env b ie w key endpoint model url result :
  analysis_use_azure_form_recognizer env = Returned true →
  Config.option_value (config_data env) "Main" "form-recognizer-key" = Some key →
  key ≠ EmptyString →
  Config.option_value (config_data env) "Main" "form-recognizer-endpoint" = Some endpoint →
  endpoint ≠ EmptyString →
  form_recognizer_model_id b = Some model →
  in_progress_blob_sas_url b = Some url →
  url ≠ EmptyString →
  analyze_document_from_url env model url = Returned result →
  recognizer_result env (mkState b ie w) = (Returned (JsonResultList result), mkState b ie w).
Proof.
  intros Hon Hk Hkne He Hene Hm Hu Hune Hs.
  unfold recognizer_result, recognize, Config.has_option, Config.get,
    begin_analyze_document_from_url.
  unfold_stmt. rewrite Hon, Hk, He.
  destruct key as [|ck key]; [done |]. destruct endpoint as [|ce endpoint]; [done |].
  destruct url as [|cu url]; [done |]. simpl.
  rewrite Hu. simpl. by rewrite Hm, Hs.
Qed.

(** An iteration whose claim goes through and whose analysis yields
    [result_dict]. *)
Lemma analysed_iteration env b ie w ty model result_dict :
  get_document_type_from_file_name (config_data env) (validation_successful_blob_path b)
  = Returned (ty, model) →
  validation_successful_blob_path b ∈ input_container w →
  in_progress_path env b ≠ validation_successful_blob_path b →
  (∀ w0, recognizer_result env (mkState (claimed env ty model (clock w) b) ie w0)
         = (Returned result_dict, mkState (claimed env ty model (clock w) b) ie w0)) →
  ∃ b1 w1,
    handle_input_blob env true (mkState b ie w)
    = (Returned tt,
       mkState (relocated env false (in_progress_path env b) (S (clock w1)) (marked (clock w1) b1))
         false
         (St.persist
            (relocated env false (in_progress_path env b) (S (clock w1)) (marked (clock w1) b1))
            (St.set_clock (S (S (clock w1)))
               (St.set_input_container
                  (moved (in_progress_path env b) (destination env false (in_progress_path env b))
                     (input_container w1))
                  (St.persist (relocating env false (in_progress_path env b) (marked (clock w1) b1))
                     (St.persist (marked (clock w1) b1) (St.set_clock (S (clock w1)) w1)))))))
    ∧ lifecycle_status_list b1
      = lifecycle_status_list b ++ [mkLifecycleStatus PROCESSING "Starting blob process" (clock w)]
    ∧ failed_blob_path b1 = failed_blob_path b
    ∧ match result_container w !! result_json_path (in_progress_path env b) with
      | None =>
          result_container w1 !! result_json_path (in_progress_path env b)
          = Some (mkResultJson (PyStr.basename (in_progress_path env b)) result_dict)
          ∧ json_output b1
            = Some (mkResultJsonMetaData (DEFAULT_RESULT_JSON_CONTAINER env)
                      (result_json_path (in_progress_path env b)))
      | Some old =>
          result_container w1 = result_container w ∧ json_output b1 = json_output b
      end.
Proof.
  intros Hty Hin Hne Hrec.
  unfold handle_input_blob, process_blob.
  erewrite try_bind_returned by by apply claim_resolved.
  match goal with
  | |- context [Stmt.try_except _ _ (mkState ?b0 ?i0 ?w0)] =>
      destruct (store_result_returns env result_dict b0 i0 w0 (in_progress_path env b) eq_refl)
        as (b1 & w1 & Hrun & Hcases);
      specialize (Hrec w0)
  end.
  exists b1, w1.
  assert (in_progress_blob_path b1 = Some (in_progress_path env b)
          ∧ in_progress_path env b ∈ input_container w1) as [Hip Hcont].
  { destruct Hcases as [(old & _ & -> & ->) | (_ & -> & ->)];
      (split; simpl; [done | unfold moved; set_solver]). }
  split; [| split; [| split]].
  - erewrite try_bind_returned.
    2:{ erewrite bind_returned; [done |]. unfold analyze_blob.
        erewrite bind_returned by exact Hrec. exact Hrun. }
    apply try_returned.
    by apply (mark_processed_and_move_relocatable env b1 false w1 _ Hip).
  - by destruct Hcases as [(old & _ & -> & ->) | (_ & -> & ->)].
  - by destruct Hcases as [(old & _ & -> & ->) | (_ & -> & ->)].
  - destruct Hcases as [(old & Hold & -> & ->) | (Hfree & -> & ->)]; simpl in *.
    + by rewrite Hold.
    + rewrite Hfree. split; [apply lookup_insert_eq | done].
Qed.

(** X7: a document whose claim goes through, with the analysis enabled and
    configured and the service answering [result], is finalized as a
    success: the iteration returns with [is_error] reset, the record is
    processed and successful with the entries [PROCESSING], [PROCESSED],
    [SUCCESS] appended, and a free result path holds the file name and the
    answer of the service, the record pointing at it. *)
Theorem analysed_document_succeeds env b ie w ty model key endpoint result :
  get_document_type_from_file_name (config_data env) (validation_successful_blob_path b)
  = Returned (ty, model) →
  validation_successful_blob_path b ∈ input_container w →
  in_progress_path env b ≠ validation_successful_blob_path b →
  analysis_use_azure_form_recognizer env = Returned true →
  Config.option_value (config_data env) "Main" "form-recognizer-key" = Some key →
  key ≠ EmptyString →
  Config.option_value (config_data env) "Main" "form-recognizer-endpoint" = Some endpoint →
  endpoint ≠ EmptyString →
  analyze_document_from_url env model (get_sas_url env (in_progress_path env b))
  = Returned result →
  let ip := in_progress_path env b in
  ∃ s',
    handle_input_blob env true (mkState b ie w) = (Returned tt, s')
    ∧ loop_is_error s' = false
    ∧ is_processed_for_data (cur s') = true
    ∧ is_processed_success (cur s') = true
    ∧ is_processed_failed (cur s') = false
    ∧ success_blob_path (cur s') = Some (destination env false ip)
    ∧ statuses (cur s') = statuses b ++ [PROCESSING; PROCESSED; SUCCESS]
    ∧ (result_container w !! result_json_path ip = None →
       result_container (world s') !! result_json_path ip
       = Some (mkResultJson (PyStr.basename ip) (JsonResultList result))
       ∧ json_output (cur s')
         = Some (mkResultJsonMetaData (DEFAULT_RESULT_JSON_CONTAINER env) (result_json_path ip))).
Proof.
  intros Hty Hin Hne Hon Hk Hkne He Hene Hs ip.
  destruct (analysed_iteration env b ie w ty model (JsonResultList result) Hty Hin Hne)
    as (b1 & w1 & -> & Hl & _ & Hres).
  { intros w0. eapply recognizer_result_enabled; try done. }
  eexists. split; [done |]. simpl. do 5 (split; [done |]). split.
  - unfold statuses. simpl. rewrite !fmap_app, Hl, fmap_app. simpl.
    by rewrite <- !app_assoc.
  - intros Hfree. subst ip. by rewrite Hfree in Hres.
Qed.

Lemma analysed_document_succeeds_witness :
  ∃ s',
    handle_input_blob
      (Sample.spec_env (Sample.config "prod" (Some "true")) Sample.service_ok) true
      (mkState (Sample.validated Sample.receipt_1001) true (Sample.world_of [Sample.receipt_1001]))
    = (Returned tt, s')
    ∧ is_processed_success (cur s') = true.
Proof.
  destruct (analysed_document_succeeds
              (Sample.spec_env (Sample.config "prod" (Some "true")) Sample.service_ok)
              (Sample.validated Sample.receipt_1001) true (Sample.world_of [Sample.receipt_1001])
              "receipt" "model-A" "key" "https://recognizer" "{}")
    as (s' & H & _ & _ & Hs & _).
  - reflexivity.
  - refine (bool_decide_unpack _ _). by vm_compute.
  - by vm_compute.
  - reflexivity.
  - reflexivity.
  - discriminate.
  - reflexivity.
  - discriminate.
  - by vm_compute.
  - exists s'. split; [exact H | exact Hs].
Defined.

(** ** How an iteration ends *)

(** An iteration that returns has returned from
    [mark_processed_and_move], in the [try] suite or in an [except]
    clause, entered in a state that satisfies what the steps before it
    preserve. *)
Lemma iteration_returns_via_mark env (use_fr : bool) (I : state → Prop) s s' :
  preserves I (set_blob_for_processing_and_update_mongodb env) →
  preserves I (if use_fr then analyze_blob env;; Stmt.assign_is_error false
               else Stmt.ret tt : M unit) →
  preserves I (mark_processed_and_move env) →
  I s →
  handle_input_blob env use_fr s = (Returned tt, s') →
  ∃ s0, I s0 ∧ mark_processed_and_move env s0 = (Returned tt, s').
Proof.
  intros Hclaim Hmid Hmark Hs. unfold handle_input_blob, process_blob.
  specialize (Hclaim s Hs).
  destruct (set_blob_for_processing_and_update_mongodb env s) as [[[]|e] s1] eqn:E1;
    simpl in Hclaim.
  - erewrite try_bind_returned by done.
    specialize (Hmid s1 Hclaim).
    destruct ((if use_fr then analyze_blob env;; Stmt.assign_is_error false
               else Stmt.ret tt : M unit) s1) as [[[]|e] s2] eqn:E2; simpl in Hmid.
    + erewrite try_bind_returned by done.
      specialize (Hmark s2 Hmid).
      destruct (mark_processed_and_move env s2) as [[[]|e] s3] eqn:E3; simpl in Hmark.
      * erewrite try_returned by done. intros [= <-]. eauto.
      * erewrite try_raised by done. rewrite except_clauses_eq. eauto.
    + erewrite try_bind_raised by done. rewrite except_clauses_eq. eauto.
  - erewrite try_bind_raised by done. rewrite except_clauses_eq. eauto.
Qed.

(** [mark_processed_and_move] returns only for a record whose object is
    where the record says, and then leaves the state of
    [mark_processed_and_move_relocatable]. *)
Lemma mark_processed_and_move_returned env b ie w s' :
  mark_processed_and_move env (mkState b ie w) = (Returned tt, s') →
  ∃ ip,
    in_progress_blob_path b = Some ip
    ∧ ip ∈ input_container w
    ∧ s' = mkState (relocated env ie ip (S (clock w)) (marked (clock w) b)) ie
             (St.persist (relocated env ie ip (S (clock w)) (marked (clock w) b))
                (St.set_clock (S (S (clock w)))
                   (St.set_input_container (moved ip (destination env ie ip) (input_container w))
                      (St.persist (relocating env ie ip (marked (clock w) b))
                         (St.persist (marked (clock w) b) (St.set_clock (S (clock w)) w)))))).
Proof.
  intros H. destruct (in_progress_blob_path b) as [ip|] eqn:Hip.
  - destruct (decide (ip ∈ input_container w)) as [Hin|Hin].
    + rewrite (mark_processed_and_move_relocatable env b ie w ip Hip Hin) in H.
      injection H as <-. by exists ip.
    + rewrite mark_processed_and_move_eq in H.
      by rewrite (relocation_absent env ie _ _ _ ip) in H.
  - rewrite mark_processed_and_move_eq in H. by rewrite relocation_unassigned in H.
Qed.

(** When nothing between the entry of an iteration and its relocation
    changes [is_error] (it is already [False], or the analysis is skipped),
    an iteration that returns has relocated by the value of [is_error] at
    its entry. *)
Lemma iteration_follows_is_error env (use_fr : bool) (v : bool) s s' :
  use_fr = false ∨ v = false →
  loop_is_error s = v →
  handle_input_blob env use_fr s = (Returned tt, s') →
  loop_is_error s' = v
  ∧ is_processed_for_data (cur s') = true
  ∧ is_processed_success (cur s') = negb v
  ∧ is_processed_failed (cur s') = v.
Proof.
  intros Hcase Hs H.
  destruct (iteration_returns_via_mark env use_fr (is_error_is v) s s') as ([b0 ie0 w0] & H0 & Hm);
    try done.
  - preserves_steps; unfold is_error_is; intros [b ie w]; by simpl.
  - destruct Hcase as [-> | ->]; preserves_steps; unfold is_error_is; intros [b ie w]; by simpl.
  - preserves_steps; unfold is_error_is; intros [b ie w]; by simpl.
  - unfold is_error_is in H0. simpl in H0. subst ie0.
    apply mark_processed_and_move_returned in Hm as (ip & _ & _ & ->).
    by destruct v.
Qed.

Lemma for_each_follows_is_error env (use_fr : bool) (v : bool) docs w outs :
  use_fr = false ∨ v = false →
  (for_each_input_blob env use_fr docs v w).1 = Returned outs →
  Forall (λ b, is_processed_for_data b = true
               ∧ is_processed_success b = negb v
               ∧ is_processed_failed b = v) outs.
Proof.
  intros Hcase. revert w outs. induction docs as [|d docs IH]; intros w outs H; simpl in H.
  - injection H as <-. constructor.
  - destruct (handle_input_blob env use_fr (mkState d v w)) as [[[]|e] s] eqn:E; [| done].
    destruct (iteration_follows_is_error env use_fr v (mkState d v w) s Hcase eq_refl E)
      as (Hv & Hrest).
    rewrite Hv in H.
    destruct (for_each_input_blob env use_fr docs v (world s)) as [[outs'|e] w1] eqn:E'; [| done].
    injection H as <-. constructor; [done |]. apply (IH (world s)). by rewrite E'.
Qed.

(** X8: a claimed document whose analysis raises is relocated by the value
    [is_error] has when its iteration starts: to [Failed], with the entries
    [PROCESSING], [PROCESSED], [FAILED], when it is still [True], and to
    [Successful], with [SUCCESS] as the last entry, once an earlier
    iteration has reset it. *)
Theorem failed_analysis_follows_is_error env b (ie : bool) w ty model e s2 :
  get_document_type_from_file_name (config_data env) (validation_successful_blob_path b)
  = Returned (ty, model) →
  validation_successful_blob_path b ∈ input_container w →
  in_progress_path env b ≠ validation_successful_blob_path b →
  analyze_blob env
    (mkState (claimed env ty model (clock w) b) ie
       (St.persist (claimed env ty model (clock w) b)
          (St.set_input_container
             (moved (validation_successful_blob_path b) (in_progress_path env b)
                (input_container w))
             (St.persist (claiming env ty model (clock w) b)
                (St.set_clock (S (clock w)) w)))))
  = (Raised e, s2) →
  ∃ s', handle_input_blob env true (mkState b ie w) = (Returned tt, s')
        ∧ loop_is_error s' = ie
        ∧ is_processed_for_data (cur s') = true
        ∧ is_processed_success (cur s') = negb ie
        ∧ is_processed_failed (cur s') = ie
        ∧ (if ie then failed_blob_path (cur s') else success_blob_path (cur s'))
          = Some (destination env ie (in_progress_path env b))
        ∧ statuses (cur s')
          = statuses b ++ [PROCESSING; PROCESSED; if ie then FAILED else SUCCESS].
Proof.
  intros Hty Hin Hne Hraise.
  unfold handle_input_blob, process_blob.
  erewrite try_bind_returned by by apply claim_resolved.
  erewrite try_bind_raised by by erewrite bind_raised.
  rewrite except_clauses_eq.
  match type of Hraise with
  | analyze_blob _ ?s = _ =>
      assert (Hpre : claimed_with (in_progress_path env b) ie
                       (lifecycle_status_list (claimed env ty model (clock w) b)) s)
  end.
  { repeat split. simpl. unfold moved. set_solver. }
  apply (analyze_blob_keeps_claimed_with env) in Hpre as Hk.
  rewrite Hraise in Hk. destruct s2 as [b2 ie2 w2].
  destruct Hk as ([Hip Hcont] & Hie & Hl). simpl in Hip, Hcont, Hie, Hl. subst ie2.
  erewrite mark_processed_and_move_relocatable by done.
  eexists. split; [done |]. simpl.
  split; [done |]. split; [by destruct ie |]. split; [by destruct ie |].
  split; [by destruct ie |]. split; [by destruct ie |].
  unfold statuses. destruct ie; simpl; rewrite !fmap_app, Hl, fmap_app; simpl;
    by rewrite <- !app_assoc.
Qed.

Lemma failed_analysis_follows_is_error_witness :
  ∃ s',
    handle_input_blob
      (Sample.spec_env (Sample.config "prod" (Some "true")) Sample.service_down) true
      (mkState (Sample.validated Sample.receipt_1001) false
         (Sample.world_of [Sample.receipt_1001]))
    = (Returned tt, s')
    ∧ is_processed_success (cur s') = true.
Proof.
  edestruct (failed_analysis_follows_is_error
               (Sample.spec_env (Sample.config "prod" (Some "true")) Sample.service_down)
               (Sample.validated Sample.receipt_1001) false
               (Sample.world_of [Sample.receipt_1001]) "receipt" "model-A")
    as (s' & H & _ & _ & Hs & _).
  - reflexivity.
  - refine (bool_decide_unpack _ _). by vm_compute.
  - by vm_compute.
  - apply injective_projections; simpl; [by vm_compute | reflexivity].
  - exists s'. split; [exact H | exact Hs].
Defined.

(** X9: [is_error] is never set back to [True]: in a batch that returns,
    once it is [False] every record, whatever its analysis did, is marked
    processed and successful and none is marked failed. *)
Theorem reset_is_error_marks_all_successful env (use_fr : bool) docs w outs :
  (for_each_input_blob env use_fr docs false w).1 = Returned outs →
  Forall (λ b, is_processed_for_data b = true
               ∧ is_processed_success b = true
               ∧ is_processed_failed b = false) outs.
Proof. apply (for_each_follows_is_error env use_fr false). by right. Qed.

Lemma reset_is_error_marks_all_successful_witness :
  ∃ outs,
    (for_each_input_blob
       (Sample.spec_env (Sample.config "prod" (Some "true")) Sample.service_down) true
       (Sample.validated <$> [Sample.receipt_1001; Sample.receipt_1002]) false
       (Sample.world_of [Sample.receipt_1001; Sample.receipt_1002])).1
    = Returned outs
    ∧ Forall (λ b, is_processed_for_data b = true
                   ∧ is_processed_success b = true
                   ∧ is_processed_failed b = false) outs.
Proof.
  eexists. split; [by vm_compute |].
  eapply (reset_is_error_marks_all_successful
            (Sample.spec_env (Sample.config "prod" (Some "true")) Sample.service_down) true
            (Sample.validated <$> [Sample.receipt_1001; Sample.receipt_1002])
            (Sample.world_of [Sample.receipt_1001; Sample.receipt_1002])).
  by vm_compute.
Defined.

(** X10: with the toggle of the batch loop off, [is_error] keeps its
    initial [True]: every record of a batch that returns is marked
    processed and failed, and none successful. *)
Theorem skipped_analysis_marks_all_failed env w outs :
  handler_use_azure_form_recognizer env = Returned false →
  (handle_input_blob_process env w).1 = Returned outs →
  Forall (λ b, is_processed_for_data b = true
               ∧ is_processed_success b = false
               ∧ is_processed_failed b = true) outs.
Proof.
  intros Hoff. unfold handle_input_blob_process. rewrite Hoff.
  destruct (get_azure_storage_blob_service_client env) as [[]|]; [| done].
  apply (for_each_follows_is_error env false true). by left.
Qed.

Lemma skipped_analysis_marks_all_failed_witness :
  ∃ outs,
    (handle_input_blob_process
       (Sample.spec_env (Sample.config "prod" (Some "off")) Sample.service_ok)
       (Sample.world_of [Sample.receipt_1001; Sample.receipt_1002])).1
    = Returned outs
    ∧ Forall (λ b, is_processed_for_data b = true
                   ∧ is_processed_success b = false
                   ∧ is_processed_failed b = true) outs.
Proof.
  eexists. split; [by vm_compute |].
  eapply (skipped_analysis_marks_all_failed
            (Sample.spec_env (Sample.config "prod" (Some "off")) Sample.service_ok)
            (Sample.world_of [Sample.receipt_1001; Sample.receipt_1002])).
  - reflexivity.
  - by vm_compute.
Defined.

(** ** The record, the record store and the container after an iteration *)

Lemma find_record_upsert_eq (b : InputBlob) (coll : list InputBlob) :
  find_record (validation_successful_blob_path b) (St.upsert b coll) = Some b.
Proof.
  induction coll as [|r coll IH]; simpl.
  - by rewrite String.eqb_refl.
  - destruct (String.eqb (validation_successful_blob_path r)
                (validation_successful_blob_path b)) eqn:E; simpl.
    + by rewrite String.eqb_refl.
    + by rewrite E.
Qed.

Lemma find_record_upsert_ne (k : string) (b : InputBlob) (coll : list InputBlob) :
  validation_successful_blob_path b ≠ k →
  find_record k (St.upsert b coll) = find_record k coll.
Proof.
  intros Hne. induction coll as [|r coll IH]; simpl.
  - by apply String.eqb_neq in Hne as ->.
  - destruct (String.eqb (validation_successful_blob_path r)
                (validation_successful_blob_path b)) eqn:E; simpl.
    + apply String.eqb_eq in E. rewrite E.
      by apply String.eqb_neq in Hne as ->.
    + by rewrite IH.
Qed.

Lemma handle_input_blob_keeps_key env use_fr k :
  preserves (key_is k) (handle_input_blob env use_fr).
Proof. preserves_steps; unfold key_is; intros [b ie w]; by simpl. Qed.

Lemma handle_input_blob_extends_history env use_fr k v entries snaps :
  preserves (extends_history k v entries snaps) (handle_input_blob env use_fr).
Proof.
  preserves_steps; unfold extends_history; intros [b ie w]; simpl; try done.
  all: intros (Hk & Hv & [m1 Hm1] & [m2 Hm2]); repeat split; try done.
  all: try (rewrite Hm1; eexists; by rewrite <- app_assoc).
  all: try (rewrite Hm2; eexists; by rewrite <- app_assoc).
  all: eauto.
Qed.

Lemma handle_input_blob_keeps_record env use_fr k k' r :
  k ≠ k' →
  preserves (keeps_record k k' r) (handle_input_blob env use_fr).
Proof.
  intros Hne.
  preserves_steps; unfold keeps_record; intros [b ie w]; simpl; try done.
  all: intros [Hk Hr]; split; [done |]; rewrite find_record_upsert_ne; [done | congruence].
Qed.

(** X11: when an iteration returns, nothing of the record is left
    unsaved: the record keeps its key, the last snapshot the record store
    received is the record as the iteration leaves it, and the record
    store returns that record under its key. *)
Theorem returned_iteration_is_persisted env (use_fr : bool) s s' :
  handle_input_blob env use_fr s = (Returned tt, s') →
  validation_successful_blob_path (cur s') = validation_successful_blob_path (cur s)
  ∧ last (save_log (world s')) = Some (cur s')
  ∧ find_record (validation_successful_blob_path (cur s)) (mongodb (world s')) = Some (cur s').
Proof.
  intros H.
  destruct (iteration_returns_via_mark env use_fr
              (key_is (validation_successful_blob_path (cur s))) s s')
    as ([b0 ie0 w0] & H0 & Hm); try done.
  1-3: preserves_steps; unfold key_is; intros [b ie w]; by simpl.
  unfold key_is in H0. simpl in H0.
  apply mark_processed_and_move_returned in Hm as (ip & _ & _ & ->). simpl.
  split; [by destruct ie0 |]. split; [by rewrite last_snoc |].
  rewrite <- H0.
  replace (validation_successful_blob_path b0)
    with (validation_successful_blob_path
            (relocated env ie0 ip (S (clock w0)) (marked (clock w0) b0)))
    by by destruct ie0.
  apply find_record_upsert_eq.
Qed.

Lemma returned_iteration_is_persisted_witness :
  ∃ s',
    handle_input_blob
      (Sample.spec_env (Sample.config "prod" (Some "true")) Sample.service_ok) true
      (mkState (Sample.validated Sample.receipt_1001) true (Sample.world_of [Sample.receipt_1001]))
    = (Returned tt, s')
    ∧ last (save_log (world s')) = Some (cur s').
Proof.
  destruct (handle_input_blob
              (Sample.spec_env (Sample.config "prod" (Some "true")) Sample.service_ok) true
              (mkState (Sample.validated Sample.receipt_1001) true
                 (Sample.world_of [Sample.receipt_1001]))) as [[[]|e] s'] eqn:E.
  - exists s'. split; [reflexivity |].
    destruct (returned_iteration_is_persisted _ _ _ _ E) as (_ & H & _). exact H.
  - vm_compute in E. discriminate E.
Defined.

(** X12: the batch loop keeps the identity of the records and only adds
    to their history: the records it returns are those it was given, in
    the same order and under the same keys, validation flag unchanged,
    each with its earlier lifecycle entries followed by new ones; and the
    snapshots the record store had received are still there, followed by
    new ones, whether the batch returns or raises. *)
Theorem batch_extends_history env (use_fr : bool) docs ie w :
  let r := for_each_input_blob env use_fr docs ie w in
  (∃ more, save_log r.2 = save_log w ++ more)
  ∧ ∀ outs, r.1 = Returned outs →
            Forall2 (λ d o,
                       validation_successful_blob_path o = validation_successful_blob_path d
                       ∧ is_validation_successful o = is_validation_successful d
                       ∧ ∃ more, lifecycle_status_list o = lifecycle_status_list d ++ more)
              docs outs.
Proof.
  revert ie w. induction docs as [|d docs IH]; intros ie w; simpl.
  - split; [exists []; by rewrite app_nil_r |]. intros outs [= <-]. constructor.
  - pose proof (handle_input_blob_extends_history env use_fr
                  (validation_successful_blob_path d) (is_validation_successful d)
                  (lifecycle_status_list d) (save_log w) (mkState d ie w)) as H.
    destruct (handle_input_blob env use_fr (mkState d ie w)) as [[[]|e] s]; simpl in *.
    + destruct H as (Hk & Hv & Hl & [m Hm]).
      { repeat split; exists []; by rewrite app_nil_r. }
      specialize (IH (loop_is_error s) (world s)).
      destruct (for_each_input_blob env use_fr docs _ _) as [[outs|e] w1]; simpl in *.
      * destruct IH as [[m' Hm'] IH]. split.
        -- exists (m ++ m'). by rewrite Hm', Hm, app_assoc.
        -- intros ? [= <-]. constructor; [done | by apply IH].
      * destruct IH as [[m' Hm'] _]. split; [| done].
        exists (m ++ m'). by rewrite Hm', Hm, app_assoc.
    + destruct H as (_ & _ & _ & Hm); [| done].
      repeat split; exists []; by rewrite app_nil_r.
Qed.

(** X13: a batch touches no record of the record store but those it
    processes: under any key that is not the key of a record of the batch,
    the record store returns after the batch what it returned before,
    whether the batch returns or raises. *)
Theorem batch_leaves_other_records env w (k' : string) :
  Forall (λ d, validation_successful_blob_path d ≠ k') (objects_to_process w) →
  find_record k' (mongodb (handle_input_blob_process env w).2) = find_record k' (mongodb w).
Proof.
  unfold handle_input_blob_process.
  destruct (get_azure_storage_blob_service_client env) as [[]|]; [| done].
  destruct (handler_use_azure_form_recognizer env) as [use_fr|]; [| done].
  generalize (objects_to_process w) as docs. generalize true as ie.
  intros ie docs. revert ie w. induction docs as [|d docs IH]; intros ie w Hdocs; simpl.
  - done.
  - apply Forall_cons in Hdocs as [Hd Hdocs].
    pose proof (handle_input_blob_keeps_record env use_fr
                  (validation_successful_blob_path d) k' (find_record k' (mongodb w)) Hd
                  (mkState d ie w) (conj eq_refl eq_refl)) as [_ H].
    destruct (handle_input_blob env use_fr (mkState d ie w)) as [[[]|e] s]; simpl in *;
      [| done].
    specialize (IH (loop_is_error s) (world s) Hdocs).
    destruct (for_each_input_blob env use_fr docs _ _) as [[outs|e] w1]; simpl in *;
      congruence.
Qed.

Lemma batch_leaves_other_records_witness :
  find_record Sample.no_hyphen_1003
    (mongodb
       (handle_input_blob_process
          (Sample.spec_env (Sample.config "prod" (Some "true")) Sample.service_ok)
          (mkWorld (list_to_set [Sample.receipt_1001]) ∅
             [Sample.validated Sample.receipt_1001;
              Blob.set_is_processing_for_data true (Sample.validated Sample.no_hyphen_1003)]
             [] 0)).2)
  = Some (Blob.set_is_processing_for_data true (Sample.validated Sample.no_hyphen_1003)).
Proof.
  rewrite batch_leaves_other_records; [reflexivity |].
  repeat constructor. discriminate.
Defined.

(** ** The entry point *)


